(** * BeeLive: threshold classification, gauge layout and auto-adjustment

    Shallow embedding of
    - src/src/lib/utils/telemetry-transform.ts (the active transform:
      [calculateSeverity], [calculatePercent], the centred gauge positions
      and the fixed-width segment generators, [transformTelemetryToMetrics]);
    - src/unnamed/part_014 (the configuration-driven transform variant:
      linear segment split points);
    - src/unnamed/part_024 = src/src/lib/config/metrics.config.ts plus
      validation (METRICS_CONFIG, the auto-adjust rules,
      [validateThresholds], [validateNormalRange]). *)

From Stdlib Require Import QArith Qminmax Lqa List String Ascii Bool Setoid.
Import ListNotations.
Open Scope Q_scope.

(* ================================================================= *)
(** ** JavaScript numbers *)

(** A TS [number]: finite values are exact rationals (IEEE rounding is not
    modelled), plus NaN and the two infinities.  Signed zero is not
    modelled. *)
Inductive number : Type :=
| Fin (q : Q)
| NaN
| PosInf
| NegInf.

Definition Qltb (x y : Q) : bool := negb (Qle_bool y x).

(** [a < b]: every comparison with NaN is false. *)
Definition num_lt (a b : number) : bool :=
  match a, b with
  | NaN, _ | _, NaN => false
  | Fin x, Fin y => Qltb x y
  | NegInf, NegInf => false
  | NegInf, _ => true
  | _, NegInf => false
  | PosInf, _ => false
  | Fin _, PosInf => true
  end.

(** [a <= b]: false as soon as one side is NaN. *)
Definition num_le (a b : number) : bool :=
  match a, b with
  | NaN, _ | _, NaN => false
  | _, _ => negb (num_lt b a)
  end.

Definition is_nan (a : number) : bool :=
  match a with NaN => true | _ => false end.

(** [Math.min(a, b)] and [Math.max(a, b)]: NaN if either argument is NaN. *)
Definition Math_min (a b : number) : number :=
  if is_nan a || is_nan b then NaN else if num_lt b a then b else a.

Definition Math_max (a b : number) : number :=
  if is_nan a || is_nan b then NaN else if num_lt a b then b else a.

Definition inf_of_sign (c : comparison) : number :=
  match c with Gt => PosInf | Lt => NegInf | Eq => NaN end.

Definition num_neg (a : number) : number :=
  match a with
  | Fin x => Fin (- x) | NaN => NaN | PosInf => NegInf | NegInf => PosInf
  end.

Definition num_add (a b : number) : number :=
  match a, b with
  | NaN, _ | _, NaN => NaN
  | PosInf, NegInf | NegInf, PosInf => NaN
  | PosInf, _ | _, PosInf => PosInf
  | NegInf, _ | _, NegInf => NegInf
  | Fin x, Fin y => Fin (x + y)
  end.

Definition num_sub (a b : number) : number := num_add a (num_neg b).

Definition num_mul (a b : number) : number :=
  match a, b with
  | NaN, _ | _, NaN => NaN
  | Fin x, Fin y => Fin (x * y)
  | PosInf, Fin y | Fin y, PosInf => inf_of_sign (Qcompare y 0)
  | NegInf, Fin y | Fin y, NegInf => inf_of_sign (CompOpp (Qcompare y 0))
  | PosInf, PosInf | NegInf, NegInf => PosInf
  | PosInf, NegInf | NegInf, PosInf => NegInf
  end.

Definition num_div (a b : number) : number :=
  match a, b with
  | NaN, _ | _, NaN => NaN
  | Fin x, Fin y =>
      if Qeq_bool y 0 then inf_of_sign (Qcompare x 0) else Fin (x / y)
  | Fin _, _ => Fin 0
  | PosInf, Fin y => if Qle_bool 0 y then PosInf else NegInf
  | NegInf, Fin y => if Qle_bool 0 y then NegInf else PosInf
  | _, _ => NaN
  end.

Declare Scope num_scope.
Delimit Scope num_scope with num.
Infix "<?" := num_lt (at level 70) : num_scope.
Infix "<=?" := num_le (at level 70) : num_scope.
Infix "+" := num_add : num_scope.
Infix "-" := num_sub : num_scope.
Infix "*" := num_mul : num_scope.
Infix "/" := num_div : num_scope.

(* ================================================================= *)
(** ** Shared types *)

(** [type Severity = 'safe' | 'warning' | 'critical'] *)
Inductive Severity : Type := safe | warning | critical.

(** [type GaugeSegment = { start; stop; color; label }] *)
Record GaugeSegment : Type := mkSegment {
  start : number;
  stop : number;
  color : string;
  label : string
}.

(** The segment label that the code pairs with each severity
    ([// Normal = green], [// Warning = yellow], [// Critical = red]). *)
Definition severity_label (s : Severity) : string :=
  match s with
  | safe => "Normal"%string
  | warning => "Warning"%string
  | critical => "Critical"%string
  end.

(** The segments whose closed interval [[start, stop]] contains [p]. *)
Definition segments_containing (p : number) (segs : list GaugeSegment)
  : list GaugeSegment :=
  filter (fun s => num_le (start s) p && num_le p (stop s)) segs.

(** [interface Thresholds] (thresholds.service.ts); [hiveId] is omitted. *)
Record Thresholds : Type := mkThresholds {
  tempNormalMin : number;
  tempNormalMax : number;
  tempWarningMin : number;
  tempWarningMax : number;
  tempCriticalMin : number;
  tempCriticalMax : number;
  humidityNormalMin : number;
  humidityNormalMax : number;
  humidityWarningMin : number;
  humidityWarningMax : number;
  humidityCriticalMin : number;
  humidityCriticalMax : number;
  soundNormalMin : number;
  soundNormalMax : number;
  soundWarningMin : number;
  soundWarningMax : number;
  soundCriticalMin : number;
  soundCriticalMax : number;
  co2NormalMin : number;
  co2NormalMax : number;
  co2WarningMin : number;
  co2WarningMax : number;
  co2CriticalMin : number;
  co2CriticalMax : number;
  swarmRiskNormalMin : number;
  swarmRiskNormalMax : number;
  swarmRiskWarningMin : number;
  swarmRiskWarningMax : number;
  swarmRiskCriticalMin : number;
  swarmRiskCriticalMax : number;
  batteryNormalMin : number;
  batteryNormalMax : number;
  batteryWarningMin : number;
  batteryWarningMax : number;
  batteryCriticalMin : number;
  batteryCriticalMax : number;
  honeyGainNormalMin : number;
  honeyGainNormalMax : number;
  honeyGainWarningMin : number;
  honeyGainWarningMax : number;
  honeyGainCriticalMin : number;
  honeyGainCriticalMax : number;
  maxWeightDropPerHourKg : number;
  weightCriticalRobberyDropKg : number;
  weightWarningDailyLossG : number;
  weightNormalDailyGainMinG : number
}.

(** [interface Telemetry] (telemetry.service.ts); [id], [hiveId] and
    [recordedAt] are omitted: [recordedAt] only selects a scale caption. *)
Record Telemetry : Type := mkTelemetry {
  temperature : number;
  humidity : number;
  weightKg : number;
  soundDb : number;
  co2Ppm : number;
  dailyHoneyGainG : option number;
  swarmRisk : number;
  batteryPercent : number
}.

(** [type Metric]; the presentation strings [value], [scale] and [ranges]
    are omitted. *)
Record Metric : Type := mkMetric {
  m_id : string;
  m_label : string;
  m_unit : string;
  m_percent : number;
  m_severity : Severity;
  m_segments : list GaugeSegment
}.

(* ================================================================= *)
(** ** The active transform: src/src/lib/utils/telemetry-transform.ts *)

Module TelemetryTransform.

Open Scope num_scope.

(** [metricType: 'normal' | 'ascending' | 'inverted'] *)
Inductive MetricType : Type := normal | ascending | inverted.

Definition calculateSeverity
  (value normalMin normalMax warningMin warningMax criticalMin criticalMax : number)
  (metricType : MetricType) : Severity :=
  match metricType with
  | ascending =>
      if value <=? normalMax then safe
      else if value <=? warningMax then warning
      else critical
  | inverted =>
      if value <? warningMin then critical
      else if value <? normalMin then warning
      else safe
  | normal =>
      if (value <? criticalMin) || (criticalMax <? value) then critical
      else if (normalMin <=? value) && (value <=? normalMax) then safe
      else warning
  end.

Definition calculatePercent (value min max : number) : number :=
  let clamped := Math_max min (Math_min max value) in
  ((clamped - min) / (max - min)) * Fin 100.

(** [{ normalMin; normalMax; warningMin; warningMax }] *)
Record SimpleThresholds : Type := mkSimpleThresholds {
  s_normalMin : number; s_normalMax : number;
  s_warningMin : number; s_warningMax : number
}.

(** [type: 'ascending' | 'inverted'] *)
Inductive SimpleType : Type := simple_ascending | simple_inverted.

(** [{ min; max }] *)
Record DisplayRange : Type := mkRange { r_min : number; r_max : number }.

Definition leftCenter : number := Fin (1667 # 100).
Definition topCenter : number := Fin 50.
Definition rightCenter : number := Fin (8333 # 100).

Definition calculateSimplePercent (value : number) (thresholds : SimpleThresholds)
  (type : SimpleType) (_displayRange : DisplayRange) : number :=
  match type with
  | simple_ascending =>
      if value <=? s_normalMax thresholds then leftCenter
      else if value <=? s_warningMax thresholds then topCenter
      else rightCenter
  | simple_inverted =>
      if value <? s_warningMin thresholds then leftCenter
      else if value <? s_normalMin thresholds then topCenter
      else rightCenter
  end.

(** [{ normalMin; normalMax; criticalMin; criticalMax }] *)
Record RangeThresholds : Type := mkRangeThresholds {
  r_normalMin : number; r_normalMax : number;
  r_criticalMin : number; r_criticalMax : number
}.

Definition criticalLowCenter : number := Fin 10.
Definition warningLowCenter : number := Fin 30.
Definition normalCenter : number := Fin 50.
Definition warningHighCenter : number := Fin 70.
Definition criticalHighCenter : number := Fin 90.

Definition calculateRangeBasedPercent (value : number) (thresholds : RangeThresholds)
  (_displayRange : DisplayRange) : number :=
  if value <? r_criticalMin thresholds then criticalLowCenter
  else if value <? r_normalMin thresholds then warningLowCenter
  else if value <=? r_normalMax thresholds then normalCenter
  else if value <=? r_criticalMax thresholds then warningHighCenter
  else criticalHighCenter.

(** The six-field threshold object passed to the segment generators. *)
Record SegmentThresholds : Type := mkSegmentThresholds {
  g_normalMin : number; g_normalMax : number;
  g_warningMin : number; g_warningMax : number;
  g_criticalMin : number; g_criticalMax : number
}.

Definition red : string := "#ef4444".
Definition yellow : string := "#eab308".
Definition green : string := "#22c55e".

Definition generateSimpleSegments (valueRange : DisplayRange)
  (thresholds : SegmentThresholds) (type : SimpleType) : list GaugeSegment :=
  let segmentSize := Fin 100 / Fin 3 in
  match type with
  | simple_inverted =>
      [ mkSegment (Fin 0) segmentSize red "Critical";
        mkSegment segmentSize (segmentSize * Fin 2) yellow "Warning";
        mkSegment (segmentSize * Fin 2) (Fin 100) green "Normal" ]
  | simple_ascending =>
      [ mkSegment (Fin 0) segmentSize green "Normal";
        mkSegment segmentSize (segmentSize * Fin 2) yellow "Warning";
        mkSegment (segmentSize * Fin 2) (Fin 100) red "Critical" ]
  end.

Definition generateRangeBasedSegments (valueRange : DisplayRange)
  (thresholds : SegmentThresholds) : list GaugeSegment :=
  let segmentSize := Fin 100 / Fin 5 in
  [ mkSegment (Fin 0) segmentSize red "Critical";
    mkSegment segmentSize (segmentSize * Fin 2) yellow "Warning";
    mkSegment (segmentSize * Fin 2) (segmentSize * Fin 3) green "Normal";
    mkSegment (segmentSize * Fin 3) (segmentSize * Fin 4) yellow "Warning";
    mkSegment (segmentSize * Fin 4) (Fin 100) red "Critical" ].

Definition transformTelemetryToMetrics (telemetry : Telemetry)
  (thresholds : Thresholds) : list Metric :=
  (* Temperature - Range-based gauge (5 equal segments) *)
  let tempPercent := calculateRangeBasedPercent (temperature telemetry)
    (mkRangeThresholds (tempNormalMin thresholds) (tempNormalMax thresholds)
       (tempCriticalMin thresholds) (tempCriticalMax thresholds))
    (mkRange (Fin 18) (Fin 40)) in
  let tempSeverity := calculateSeverity (temperature telemetry)
    (tempNormalMin thresholds) (tempNormalMax thresholds)
    (tempWarningMin thresholds) (tempWarningMax thresholds)
    (tempCriticalMin thresholds) (tempCriticalMax thresholds) normal in
  (* Humidity - Range-based gauge (5 equal segments) *)
  let humidityPercent := calculateRangeBasedPercent (humidity telemetry)
    (mkRangeThresholds (humidityNormalMin thresholds) (humidityNormalMax thresholds)
       (humidityCriticalMin thresholds) (humidityCriticalMax thresholds))
    (mkRange (Fin 0) (Fin 100)) in
  let humiditySeverity := calculateSeverity (humidity telemetry)
    (humidityNormalMin thresholds) (humidityNormalMax thresholds)
    (humidityWarningMin thresholds) (humidityWarningMax thresholds)
    (humidityCriticalMin thresholds) (humidityCriticalMax thresholds) normal in
  (* Weight - fixed display thresholds; severity is based on drop rate *)
  let weightPercent := calculateRangeBasedPercent (weightKg telemetry)
    (mkRangeThresholds (Fin 28) (Fin 52) (Fin 24) (Fin 56))
    (mkRange (Fin 20) (Fin 60)) in
  let weightSeverity := safe in
  (* Sound - Range-based gauge (5 equal segments) *)
  let soundPercent := calculateRangeBasedPercent (soundDb telemetry)
    (mkRangeThresholds (soundNormalMin thresholds) (soundNormalMax thresholds)
       (soundCriticalMin thresholds) (soundCriticalMax thresholds))
    (mkRange (Fin 0) (Fin 100)) in
  let soundSeverity := calculateSeverity (soundDb telemetry)
    (soundNormalMin thresholds) (soundNormalMax thresholds)
    (soundWarningMin thresholds) (soundWarningMax thresholds)
    (soundCriticalMin thresholds) (soundCriticalMax thresholds) normal in
  (* CO2 - Simple ascending gauge *)
  let co2Percent := calculateSimplePercent (co2Ppm telemetry)
    (mkSimpleThresholds (co2NormalMin thresholds) (co2NormalMax thresholds)
       (co2WarningMin thresholds) (co2WarningMax thresholds))
    simple_ascending (mkRange (Fin 400) (Fin 4000)) in
  let co2Severity := calculateSeverity (co2Ppm telemetry)
    (co2NormalMin thresholds) (co2NormalMax thresholds)
    (co2WarningMin thresholds) (co2WarningMax thresholds)
    (co2CriticalMin thresholds) (co2CriticalMax thresholds) ascending in
  (* Honey Gain - Simple inverted gauge; [dailyHoneyGainG ?? 0] *)
  let honeyGain := match dailyHoneyGainG telemetry with
                   | Some g => g | None => Fin 0 end in
  let honeyPercent := calculateSimplePercent honeyGain
    (mkSimpleThresholds (honeyGainNormalMin thresholds) (honeyGainNormalMax thresholds)
       (honeyGainWarningMin thresholds) (honeyGainWarningMax thresholds))
    simple_inverted (mkRange (Fin (-500)) (Fin 800)) in
  let honeySeverity := calculateSeverity honeyGain
    (honeyGainNormalMin thresholds) (honeyGainNormalMax thresholds)
    (honeyGainWarningMin thresholds) (honeyGainWarningMax thresholds)
    (honeyGainCriticalMin thresholds) (honeyGainCriticalMax thresholds) inverted in
  (* Swarm Risk - Simple ascending gauge *)
  let swarmPercent := calculateSimplePercent (swarmRisk telemetry)
    (mkSimpleThresholds (swarmRiskNormalMin thresholds) (swarmRiskNormalMax thresholds)
       (swarmRiskWarningMin thresholds) (swarmRiskWarningMax thresholds))
    simple_ascending (mkRange (Fin 0) (Fin 100)) in
  let swarmSeverity := calculateSeverity (swarmRisk telemetry)
    (swarmRiskNormalMin thresholds) (swarmRiskNormalMax thresholds)
    (swarmRiskWarningMin thresholds) (swarmRiskWarningMax thresholds)
    (swarmRiskCriticalMin thresholds) (swarmRiskCriticalMax thresholds) ascending in
  (* Battery - Simple inverted gauge *)
  let batteryPercent' := calculateSimplePercent (batteryPercent telemetry)
    (mkSimpleThresholds (batteryNormalMin thresholds) (batteryNormalMax thresholds)
       (batteryWarningMin thresholds) (batteryWarningMax thresholds))
    simple_inverted (mkRange (Fin 0) (Fin 100)) in
  let batterySeverity := calculateSeverity (batteryPercent telemetry)
    (batteryNormalMin thresholds) (batteryNormalMax thresholds)
    (batteryWarningMin thresholds) (batteryWarningMax thresholds)
    (batteryCriticalMin thresholds) (batteryCriticalMax thresholds) inverted in
  let tempSegments := generateRangeBasedSegments (mkRange (Fin 18) (Fin 40))
    (mkSegmentThresholds (tempNormalMin thresholds) (tempNormalMax thresholds)
       (tempWarningMin thresholds) (tempWarningMax thresholds)
       (tempCriticalMin thresholds) (tempCriticalMax thresholds)) in
  let humiditySegments := generateRangeBasedSegments (mkRange (Fin 0) (Fin 100))
    (mkSegmentThresholds (humidityNormalMin thresholds) (humidityNormalMax thresholds)
       (humidityWarningMin thresholds) (humidityWarningMax thresholds)
       (humidityCriticalMin thresholds) (humidityCriticalMax thresholds)) in
  let soundSegments := generateRangeBasedSegments (mkRange (Fin 0) (Fin 100))
    (mkSegmentThresholds (soundNormalMin thresholds) (soundNormalMax thresholds)
       (soundWarningMin thresholds) (soundWarningMax thresholds)
       (soundCriticalMin thresholds) (soundCriticalMax thresholds)) in
  let co2Segments := generateSimpleSegments (mkRange (Fin 400) (Fin 4000))
    (mkSegmentThresholds (co2NormalMin thresholds) (co2NormalMax thresholds)
       (co2WarningMin thresholds) (co2WarningMax thresholds)
       (co2CriticalMin thresholds) (co2CriticalMax thresholds)) simple_ascending in
  let swarmSegments := generateSimpleSegments (mkRange (Fin 0) (Fin 100))
    (mkSegmentThresholds (swarmRiskNormalMin thresholds) (swarmRiskNormalMax thresholds)
       (swarmRiskWarningMin thresholds) (swarmRiskWarningMax thresholds)
       (swarmRiskCriticalMin thresholds) (swarmRiskCriticalMax thresholds)) simple_ascending in
  let honeySegments := generateSimpleSegments (mkRange (Fin (-500)) (Fin 800))
    (mkSegmentThresholds (honeyGainNormalMin thresholds) (honeyGainNormalMax thresholds)
       (honeyGainWarningMin thresholds) (honeyGainWarningMax thresholds)
       (honeyGainCriticalMin thresholds) (honeyGainCriticalMax thresholds)) simple_inverted in
  let batterySegments := generateSimpleSegments (mkRange (Fin 0) (Fin 100))
    (mkSegmentThresholds (batteryNormalMin thresholds) (batteryNormalMax thresholds)
       (batteryWarningMin thresholds) (batteryWarningMax thresholds)
       (batteryCriticalMin thresholds) (batteryCriticalMax thresholds)) simple_inverted in
  [ mkMetric "temp" "Hive Temperature" "°C" tempPercent tempSeverity tempSegments;
    mkMetric "humidity" "Humidity" "%" humidityPercent humiditySeverity humiditySegments;
    mkMetric "weight" "Weight (kg)" "kg" weightPercent weightSeverity
      (generateRangeBasedSegments (mkRange (Fin 20) (Fin 60))
         (mkSegmentThresholds (Fin 28) (Fin 52) (Fin 24) (Fin 56) (Fin 24) (Fin 56)));
    mkMetric "activity" "Bee Activity" "dB" soundPercent soundSeverity soundSegments;
    mkMetric "co2" "CO₂" "ppm" co2Percent co2Severity co2Segments;
    mkMetric "honey" "Daily Honey Gain" "g" honeyPercent honeySeverity honeySegments;
    mkMetric "swarm" "Swarm Risk Score" EmptyString swarmPercent swarmSeverity swarmSegments;
    mkMetric "battery" "Battery %" "%" batteryPercent' batterySeverity batterySegments ].

End TelemetryTransform.

(* ================================================================= *)
(** ** Rendering numbers in template literals *)

(** Decimal digits of a natural number (fuel-bounded by its size). *)
Fixpoint digits_of (fuel : nat) (n : positive) (acc : string) : string :=
  match fuel with
  | O => acc
  | S fuel' =>
      let d := Z.modulo (Zpos n) 10 in
      let c := Ascii.ascii_of_nat (48 + Z.to_nat d) in
      match Z.div (Zpos n) 10 with
      | Zpos n' => digits_of fuel' n' (String c acc)
      | _ => String c acc
      end
  end.

Definition Z_to_string (z : Z) : string :=
  match z with
  | Z0 => "0"
  | Zpos p => digits_of (Pos.size_nat p) p EmptyString
  | Zneg p => String "-"%char (digits_of (Pos.size_nat p) p EmptyString)
  end.

(** [`${n}`]: integers print as JavaScript prints them; a non-integer is
    printed as [numerator/denominator] (JS decimal expansion not modelled). *)
Definition number_to_string (a : number) : string :=
  match a with
  | Fin q =>
      let q' := Qred q in
      if Pos.eqb (Qden q') 1 then Z_to_string (Qnum q')
      else Z_to_string (Qnum q') ++ "/" ++ Z_to_string (Zpos (Qden q'))
  | NaN => "NaN"
  | PosInf => "Infinity"
  | NegInf => "-Infinity"
  end.

(* ================================================================= *)
(** ** The metrics configuration: src/unnamed/part_024 *)

Module MetricsConfig.

Open Scope string_scope.
Open Scope num_scope.

(** [type MetricType = 'ascending' | 'inverted' | 'range'] *)
Inductive MetricType : Type := ascending | inverted | range.

Definition MetricType_eqb (a b : MetricType) : bool :=
  match a, b with
  | ascending, ascending | inverted, inverted | range, range => true
  | _, _ => false
  end.

(** [interface MetricConfig]; [autoAdjust] is flattened into [warningSpan]
    and the optional [warningExtension]. *)
Record MetricConfig : Type := mkConfig {
  id : string;
  label : string;
  unit : string;
  type : MetricType;
  displayMin : number;
  displayMax : number;
  scaleLabels : string * string * string;
  warningSpan : number;
  warningExtension : option number;
  allowManualThresholds : bool
}.

Definition temp_cfg : MetricConfig :=
  mkConfig "temp" "Hive Temperature" "°C" range (Fin 15) (Fin 45)
    ("15°", "TCM", "45°") (Fin 0) (Some (Fin 5)) false.
Definition humidity_cfg : MetricConfig :=
  mkConfig "humidity" "Humidity" "%" range (Fin 0) (Fin 100)
    ("0%", "Hive", "100%") (Fin 0) (Some (Fin 10)) false.
Definition activity_cfg : MetricConfig :=
  mkConfig "activity" "Bee Activity" "dB" range (Fin 0) (Fin 100)
    ("0 dB", "Activity", "100 dB") (Fin 0) (Some (Fin 10)) false.
Definition co2_cfg : MetricConfig :=
  mkConfig "co2" "CO₂" "ppm" ascending (Fin 400) (Fin 4000)
    ("400", "Vent", "4000") (Fin 500) None false.
Definition swarm_cfg : MetricConfig :=
  mkConfig "swarm" "Swarm Risk" EmptyString ascending (Fin 0) (Fin 100)
    ("0", "Score", "100") (Fin 10) None false.
Definition battery_cfg : MetricConfig :=
  mkConfig "battery" "Battery" "%" inverted (Fin 0) (Fin 100)
    ("0%", "Charge", "100%") (Fin 40) None false.
Definition honey_cfg : MetricConfig :=
  mkConfig "honey" "Daily Honey Gain" "g" inverted (Fin (-500)) (Fin 1000)
    ("-500g", "Δ 24h", "+1000g") (Fin 250) None false.
Definition weight_cfg : MetricConfig :=
  mkConfig "weight" "Weight" "kg" range (Fin 20) (Fin 60)
    ("20 kg", "Total", "60 kg") (Fin 0) (Some (Fin 4)) true.

(** [METRICS_CONFIG[metricId]], [undefined] for any other key. *)
Definition METRICS_CONFIG (metricId : string) : option MetricConfig :=
  find (fun c => String.eqb (id c) metricId)
    [temp_cfg; humidity_cfg; activity_cfg; co2_cfg; swarm_cfg;
     battery_cfg; honey_cfg; weight_cfg].

(** [{ warningMin, warningMax, criticalMin, criticalMax }] *)
Record Adjusted : Type := mkAdjusted {
  a_warningMin : number; a_warningMax : number;
  a_criticalMin : number; a_criticalMax : number
}.

(** A call that returns a value or throws an [Error] with a message. *)
Inductive Result (A : Type) : Type :=
| Ok (a : A)
| Throw (message : string).
Arguments Ok {A} a.
Arguments Throw {A} message.

Definition autoAdjustAscendingThresholds (metricId : string)
  (normalMax displayMax : number) : Result Adjusted :=
  match METRICS_CONFIG metricId with
  | Some config =>
      if negb (MetricType_eqb (type config) ascending)
      then Throw ("Invalid metric ID or type for ascending adjustment: " ++ metricId)
      else
        let warningSpan := warningSpan config in
        let warningMin := normalMax in
        let warningMax := Math_min displayMax (normalMax + warningSpan) in
        let criticalMin := warningMax in
        let criticalMax := displayMax in
        Ok (mkAdjusted warningMin warningMax criticalMin criticalMax)
  | None => Throw ("Invalid metric ID or type for ascending adjustment: " ++ metricId)
  end.

Definition autoAdjustInvertedThresholds (metricId : string)
  (normalMin displayMin : number) : Result Adjusted :=
  match METRICS_CONFIG metricId with
  | Some config =>
      if negb (MetricType_eqb (type config) inverted)
      then Throw ("Invalid metric ID or type for inverted adjustment: " ++ metricId)
      else
        let warningSpan := warningSpan config in
        let warningMax := normalMin in
        let warningMin := Math_max displayMin (normalMin - warningSpan) in
        let criticalMax := warningMin in
        let criticalMin := displayMin in
        Ok (mkAdjusted warningMin warningMax criticalMin criticalMax)
  | None => Throw ("Invalid metric ID or type for inverted adjustment: " ++ metricId)
  end.

(** [x || 10] on an optional number: [undefined], [0] and [NaN] are falsy. *)
Definition or_default (o : option number) (d : number) : number :=
  match o with
  | Some (Fin q) => if Qeq_bool q 0 then d else Fin q
  | Some NaN | None => d
  | Some x => x
  end.

Definition autoAdjustRangeThresholds (metricId : string)
  (normalMin normalMax displayMin displayMax : number) : Result Adjusted :=
  match METRICS_CONFIG metricId with
  | Some config =>
      if negb (MetricType_eqb (type config) range)
      then Throw ("Invalid metric ID or type for range adjustment: " ++ metricId)
      else
        let extension := or_default (warningExtension config) (Fin 10) in
        let warningMin := Math_max displayMin (normalMin - extension) in
        let warningMax := Math_min displayMax (normalMax + extension) in
        let criticalMin := warningMin in
        let criticalMax := warningMax in
        Ok (mkAdjusted warningMin warningMax criticalMin criticalMax)
  | None => Throw ("Invalid metric ID or type for range adjustment: " ++ metricId)
  end.

(** [interface ValidationError] *)
Record ValidationError : Type := mkError { field : string; message : string }.

(** [interface ValidationResult] *)
Record ValidationResult : Type := mkResult {
  valid : bool;
  errors : list ValidationError
}.

(** [if (cond) errors.push(e)] *)
Definition push_if (cond : bool) (e : ValidationError) : list ValidationError :=
  if cond then [e] else [].

(** [config?.type === t] *)
Definition config_type_is (config : option MetricConfig) (t : MetricType) : bool :=
  match config with
  | Some c => MetricType_eqb (type c) t
  | None => false
  end.

(** [config?.unit === '%' || config?.unit === '' ? 5 : 1] *)
Definition minSpan_of (config : option MetricConfig) : number :=
  match config with
  | Some c =>
      if String.eqb (unit c) "%" || String.eqb (unit c) EmptyString
      then Fin 5 else Fin 1
  | None => Fin 1
  end.

(** [config?.unit || 'units'] *)
Definition unit_or_units (config : option MetricConfig) : string :=
  match config with
  | Some c => if String.eqb (unit c) EmptyString then "units" else unit c
  | None => "units"
  end.

Definition validateThresholds (metricId : string)
  (normalMin normalMax warningMin warningMax criticalMin criticalMax
   displayMin displayMax : number) : ValidationResult :=
  let config := METRICS_CONFIG metricId in
  let errors := List.concat [
    (* Basic range validation *)
    push_if (normalMax <? normalMin)
      (mkError "normal" "Normal minimum cannot be greater than maximum");
    push_if (warningMax <? warningMin)
      (mkError "warning" "Warning minimum cannot be greater than maximum");
    push_if (criticalMax <? criticalMin)
      (mkError "critical" "Critical minimum cannot be greater than maximum");
    (* Display range validation *)
    push_if ((normalMin <? displayMin) || (displayMax <? normalMax))
      (mkError "normal" ("Normal range must be within " ++ number_to_string displayMin
                         ++ " - " ++ number_to_string displayMax));
    (* Type-specific validation *)
    (if config_type_is config ascending then
       app (push_if (warningMin <? normalMax)
         (mkError "warning" "Warning zone must start at or after normal maximum"))
       (push_if (criticalMin <? warningMax)
         (mkError "critical" "Critical zone must start at or after warning maximum"))
     else if config_type_is config inverted then
       app (push_if (normalMin <? warningMax)
         (mkError "warning" "Warning zone must end at or before normal minimum"))
       (push_if (warningMin <? criticalMax)
         (mkError "critical" "Critical zone must end at or before warning minimum"))
     else if config_type_is config range then
       app (push_if ((normalMin <? warningMin) || (warningMax <? normalMax))
         (mkError "warning" "Warning zone must encompass the entire normal range"))
       (push_if ((warningMin <? criticalMin) || (criticalMax <? warningMax))
         (mkError "critical" "Critical boundaries must be at or beyond warning zone"))
     else []);
    (* Minimum span validation *)
    (let minSpan := minSpan_of config in
     push_if (normalMax - normalMin <? minSpan)
       (mkError "normal" ("Normal range must be at least " ++ number_to_string minSpan
                          ++ " " ++ unit_or_units config ++ " wide")))] in
  mkResult (match errors with [] => true | _ => false end) errors.

Definition validateNormalRange (metricId : string)
  (normalMin normalMax displayMin displayMax : number) : ValidationResult :=
  let config := METRICS_CONFIG metricId in
  let errors := List.concat [
    push_if (normalMax <? normalMin)
      (mkError "normal" "Minimum cannot be greater than maximum");
    push_if (normalMin <? displayMin)
      (mkError "normal" ("Minimum cannot be less than " ++ number_to_string displayMin));
    push_if (displayMax <? normalMax)
      (mkError "normal" ("Maximum cannot be greater than " ++ number_to_string displayMax));
    (let minSpan := minSpan_of config in
     push_if (normalMax - normalMin <? minSpan)
       (mkError "normal" ("Range must be at least " ++ number_to_string minSpan
                          ++ " " ++ unit_or_units config ++ " wide")))] in
  mkResult (match errors with [] => true | _ => false end) errors.

(** The auto-adjust step of [handleNormalRangeChange]
    (metric-threshold.svelte): validate the edited normal range, then
    dispatch on the metric's type and return the full threshold set
    [(normalMin, normalMax, warning, critical)]; [None] when validation
    fails, the id is unknown or adjustment throws.  The UI additionally
    skips this step for metrics with [allowManualThresholds]. *)
Definition autoAdjustForType (metricId : string)
  (normalMin normalMax min max : number) : option Adjusted :=
  if negb (valid (validateNormalRange metricId normalMin normalMax min max))
  then None
  else
    match METRICS_CONFIG metricId with
    | None => None
    | Some config =>
        let r :=
          match type config with
          | ascending => autoAdjustAscendingThresholds metricId normalMax max
          | inverted => autoAdjustInvertedThresholds metricId normalMin min
          | range => autoAdjustRangeThresholds metricId normalMin normalMax min max
          end in
        match r with Ok a => Some a | Throw _ => None end
    end.

End MetricsConfig.

(* ================================================================= *)
(** ** The configuration-driven transform variant: src/unnamed/part_014 *)

Module ConfigTransform.

Open Scope string_scope.
Open Scope num_scope.

(** [SEVERITY_COLORS] of the metrics configuration. *)
Definition SEVERITY_COLORS_normal : string := "#22c55e".
Definition SEVERITY_COLORS_warning : string := "#eab308".
Definition SEVERITY_COLORS_critical : string := "#ef4444".

Definition calculateSeverity
  (value normalMin normalMax warningMin warningMax : number)
  (metricType : MetricsConfig.MetricType) : Severity :=
  match metricType with
  | MetricsConfig.ascending =>
      if value <=? normalMax then safe
      else if value <=? warningMax then warning
      else critical
  | MetricsConfig.inverted =>
      if value <? warningMin then critical
      else if value <? normalMin then warning
      else safe
  | MetricsConfig.range =>
      if (normalMin <=? value) && (value <=? normalMax) then safe
      else if (warningMin <=? value) && (value <=? warningMax) then warning
      else critical
  end.

Definition calculatePercent (value min max : number) : number :=
  let clamped := Math_max min (Math_min max value) in
  ((clamped - min) / (max - min)) * Fin 100.

Definition valueToPercent (value displayMin displayMax : number) : number :=
  ((value - displayMin) / (displayMax - displayMin)) * Fin 100.

Definition generateAscendingSegments
  (displayMin displayMax normalMax warningMax : number) : list GaugeSegment :=
  let normalEnd := valueToPercent normalMax displayMin displayMax in
  let warningEnd := valueToPercent warningMax displayMin displayMax in
  [ mkSegment (Fin 0) normalEnd SEVERITY_COLORS_normal "Normal";
    mkSegment normalEnd warningEnd SEVERITY_COLORS_warning "Warning";
    mkSegment warningEnd (Fin 100) SEVERITY_COLORS_critical "Critical" ].

Definition generateInvertedSegments
  (displayMin displayMax warningMin normalMin : number) : list GaugeSegment :=
  let criticalEnd := valueToPercent warningMin displayMin displayMax in
  let warningEnd := valueToPercent normalMin displayMin displayMax in
  [ mkSegment (Fin 0) criticalEnd SEVERITY_COLORS_critical "Critical";
    mkSegment criticalEnd warningEnd SEVERITY_COLORS_warning "Warning";
    mkSegment warningEnd (Fin 100) SEVERITY_COLORS_normal "Normal" ].

Definition generateRangeSegments
  (displayMin displayMax criticalMin normalMin normalMax criticalMax : number)
  : list GaugeSegment :=
  let criticalLowEnd := valueToPercent criticalMin displayMin displayMax in
  let warningLowEnd := valueToPercent normalMin displayMin displayMax in
  let normalEnd := valueToPercent normalMax displayMin displayMax in
  let warningHighEnd := valueToPercent criticalMax displayMin displayMax in
  [ mkSegment (Fin 0) criticalLowEnd SEVERITY_COLORS_critical "Critical";
    mkSegment criticalLowEnd warningLowEnd SEVERITY_COLORS_warning "Warning";
    mkSegment warningLowEnd normalEnd SEVERITY_COLORS_normal "Normal";
    mkSegment normalEnd warningHighEnd SEVERITY_COLORS_warning "Warning";
    mkSegment warningHighEnd (Fin 100) SEVERITY_COLORS_critical "Critical" ].

End ConfigTransform.

(* ================================================================= *)
(** ** Configuration helpers: src/unnamed/part_024 *)

Module ConfigHelpers.

Import MetricsConfig.
Open Scope string_scope.

(** [getMetricConfig(metricId)]: [METRICS_CONFIG[metricId]]. *)
Definition getMetricConfig (metricId : string) : option MetricConfig :=
  METRICS_CONFIG metricId.

(** [getAllMetricIds()]: [Object.keys(METRICS_CONFIG)], in the order of the
    object literal. *)
Definition getAllMetricIds : list string :=
  ["temp"; "humidity"; "activity"; "co2"; "swarm"; "battery"; "honey"; "weight"].

(** [METRICS_CONFIG[metricId]?.type === 'ascending'] *)
Definition isAscendingMetric (metricId : string) : bool :=
  config_type_is (METRICS_CONFIG metricId) ascending.

(** [METRICS_CONFIG[metricId]?.type === 'inverted'] *)
Definition isInvertedMetric (metricId : string) : bool :=
  config_type_is (METRICS_CONFIG metricId) inverted.

(** [METRICS_CONFIG[metricId]?.type === 'range'] *)
Definition isRangeMetric (metricId : string) : bool :=
  config_type_is (METRICS_CONFIG metricId) range.

(** The message of the [Error] a call throws; [None] when it returns. *)
Definition thrown_message {A : Type} (r : Result A) : option string :=
  match r with Ok _ => None | Throw m => Some m end.

End ConfigHelpers.

(* ================================================================= *)
(** ** The gauge card: src/src/lib/components/dashboard/gauge-card.svelte *)

Module GaugeCard.

Open Scope string_scope.

(** The default value of the [segments] prop. *)
Definition default_segments : list GaugeSegment :=
  [ mkSegment (Fin 0) (Fin 60) "#22c55e" "Normal";
    mkSegment (Fin 60) (Fin 85) "#eab308" "Warning";
    mkSegment (Fin 85) (Fin 100) "#ef4444" "Critical" ].

(** The comparator [(a, b) => aStart - bStart]. *)
Definition compare_start (a b : GaugeSegment) : number :=
  num_sub (start a) (start b).

(** Stable insertion: [x] goes before the first [y] with
    [compare(x, y) < 0]; a NaN comparison counts as [+0]. *)
Fixpoint insert_sorted (x : GaugeSegment) (l : list GaugeSegment)
  : list GaugeSegment :=
  match l with
  | [] => [x]
  | y :: l' =>
      if num_lt (compare_start x y) (Fin 0) then x :: l
      else y :: insert_sorted x l'
  end.

(** [[...segments].sort((a, b) => aStart - bStart)]: [Array.prototype.sort]
    is stable, so with a consistent comparator its result is the stable
    sort of the segments by [start]. *)
Definition sortedSegments (segments : list GaugeSegment) : list GaugeSegment :=
  fold_left (fun acc x => insert_sorted x acc) segments [].

(** The loop of [currentSegment]: the first segment with
    [percent >= start && percent < stop], or, for the last segment,
    [percent >= start && percent <= stop]. *)
Fixpoint first_match (percent : number) (segs : list GaugeSegment)
  : option GaugeSegment :=
  match segs with
  | [] => None
  | [s] => if num_le (start s) percent && num_le percent (stop s) then Some s else None
  | s :: rest =>
      if num_le (start s) percent && num_lt percent (stop s) then Some s
      else first_match percent rest
  end.

Fixpoint last_opt (l : list GaugeSegment) : option GaugeSegment :=
  match l with
  | [] => None
  | [s] => Some s
  | _ :: rest => last_opt rest
  end.

(** [currentSegment]: the first match, else
    [sortedSegments[sortedSegments.length - 1] || segments[0]]. *)
Definition currentSegment (percent : number) (segments : list GaugeSegment)
  : option GaugeSegment :=
  let sorted := sortedSegments segments in
  match first_match percent sorted with
  | Some s => Some s
  | None =>
      match last_opt sorted with
      | Some s => Some s
      | None => hd_error segments
      end
  end.

(** [toLowerCase] on ASCII letters (every label and color the code uses
    is ASCII). *)
Definition ascii_lower (c : ascii) : ascii :=
  let n := nat_of_ascii c in
  if Nat.leb 65 n && Nat.leb n 90 then ascii_of_nat (n + 32) else c.

Fixpoint toLowerCase (s : string) : string :=
  match s with
  | EmptyString => EmptyString
  | String c s' => String (ascii_lower c) (toLowerCase s')
  end.

(** [s.includes(sub)] *)
Definition includes (s sub : string) : bool :=
  match String.index 0 sub s with Some _ => true | None => false end.

(** [currentStatus]; a segment here is an object that always has a
    [color] key (as every segment the transforms build), so
    [!("color" in segment)] is false and [!color] means the empty string. *)
Definition currentStatus (segment : option GaugeSegment) : Severity :=
  match segment with
  | None => safe
  | Some seg =>
      let c := color seg in
      if String.eqb c EmptyString then
        let l := toLowerCase (label seg) in
        if includes l "warning" then warning
        else if includes l "critical" then critical
        else safe
      else if String.eqb c "#22c55e" then safe
      else if String.eqb c "#eab308" then warning
      else if String.eqb c "#ef4444" then critical
      else
        let colorLower := toLowerCase c in
        if includes colorLower "green" then safe
        else if includes colorLower "yellow" then warning
        else if includes colorLower "red" then critical
        else safe
  end.

(** The status the card derives from its [percent] and [segments] props
    when it is given a metric of the transform ([<GaugeCard {...metric} />]). *)
Definition card_status (m : Metric) : Severity :=
  currentStatus (currentSegment (m_percent m) (m_segments m)).

(** The metric with a given id in the transform's output. *)
Definition metric_by_id (metricId : string) (ms : list Metric) : option Metric :=
  find (fun m => String.eqb (m_id m) metricId) ms.

End GaugeCard.

(* ================================================================= *)
(** ** The threshold editor:
       src/src/lib/components/configurations/metric-threshold.svelte *)

Module MetricThreshold.

Import MetricsConfig.
Open Scope string_scope.

(** The six [$bindable] threshold props. *)
Record BoundProps : Type := mkBound {
  b_normalMin : number; b_normalMax : number;
  b_warningMin : number; b_warningMax : number;
  b_criticalMin : number; b_criticalMax : number
}.

(** The component state: the bound props, the three slider ranges
    ([$state([lo, hi])], two-element arrays, as pairs) and
    [validationErrors]. *)
Record State : Type := mkState {
  bound : BoundProps;
  normalRange : number * number;
  warningRange : number * number;
  criticalRange : number * number;
  validationErrors : list ValidationError
}.

Section Component.

(** The non-bindable props [id], [min] and [max]. *)
Variables (id : string) (min max : number).

(** [const metricConfig = getMetricConfig(id)] *)
Definition metricConfig : option MetricConfig := ConfigHelpers.getMetricConfig id.

(** [metricConfig?.allowManualThresholds === false] *)
Definition isAutoAdjusted : bool :=
  match metricConfig with
  | Some c => negb (allowManualThresholds c)
  | None => false
  end.

Definition handleNormalRangeChange (st : State) : State :=
  let nr := normalRange st in
  let result := validateNormalRange id (fst nr) (snd nr) min max in
  (* validationErrors = result.errors *)
  let st1 := mkState (bound st) nr (warningRange st) (criticalRange st) (errors result) in
  if negb (valid result) then st1
  else
    match metricConfig with
    | None => st1
    | Some config =>
        if allowManualThresholds config then st1
        else
          (* try { ... } catch (e) { console.error(...) } *)
          let adjusted :=
            if MetricType_eqb (type config) ascending then
              autoAdjustAscendingThresholds id (snd nr) max
            else if MetricType_eqb (type config) inverted then
              autoAdjustInvertedThresholds id (fst nr) min
            else autoAdjustRangeThresholds id (fst nr) (snd nr) min max in
          let ranges :=
            match adjusted with
            | Ok a => ((a_warningMin a, a_warningMax a), (a_criticalMin a, a_criticalMax a))
            | Throw _ => (warningRange st, criticalRange st)
            end in
          let wr := fst ranges in
          let cr := snd ranges in
          (* untrack(() => { normalMin = normalRange[0]; ... }) *)
          mkState (mkBound (fst nr) (snd nr) (fst wr) (snd wr) (fst cr) (snd cr))
            nr wr cr (errors result)
    end.

Definition onNormalSliderChange (newValue : number * number) (st : State) : State :=
  handleNormalRangeChange
    (mkState (bound st) newValue (warningRange st) (criticalRange st) (validationErrors st)).

Definition onWarningSliderChange (newValue : number * number) (st : State) : State :=
  if isAutoAdjusted then st
  else
    let b := bound st in
    mkState (mkBound (b_normalMin b) (b_normalMax b) (fst newValue) (snd newValue)
               (b_criticalMin b) (b_criticalMax b))
      (normalRange st) newValue (criticalRange st) (validationErrors st).

Definition onCriticalSliderChange (newValue : number * number) (st : State) : State :=
  if isAutoAdjusted then st
  else
    let b := bound st in
    mkState (mkBound (b_normalMin b) (b_normalMax b) (b_warningMin b) (b_warningMax b)
               (fst newValue) (snd newValue))
      (normalRange st) (warningRange st) newValue (validationErrors st).

End Component.

(** [getFieldError(f)]: [validationErrors.find(e => e.field === f)?.message] *)
Definition getFieldError (f : string) (errs : list ValidationError) : option string :=
  option_map message (find (fun e => String.eqb (field e) f) errs).

End MetricThreshold.

(* ================================================================= *)
(** ** Evaluations on the spec's scenarios *)

Module Scenarios.

Import TelemetryTransform.

Example co2_1999 : calculateSeverity (Fin 1999) (Fin 400) (Fin 2000) (Fin 2000)
  (Fin 4000) (Fin 4000) (Fin 4000) ascending = safe.
Proof. reflexivity. Qed.
Example co2_2000 : calculateSeverity (Fin 2000) (Fin 400) (Fin 2000) (Fin 2000)
  (Fin 4000) (Fin 4000) (Fin 4000) ascending = safe.
Proof. reflexivity. Qed.
Example co2_2001 : calculateSeverity (Fin 2001) (Fin 400) (Fin 2000) (Fin 2000)
  (Fin 4000) (Fin 4000) (Fin 4000) ascending = warning.
Proof. reflexivity. Qed.
Example co2_4001 : calculateSeverity (Fin 4001) (Fin 400) (Fin 2000) (Fin 2000)
  (Fin 4000) (Fin 4000) (Fin 4000) ascending = critical.
Proof. reflexivity. Qed.
Example battery_cases :
  map (fun v => calculateSeverity (Fin v) (Fin 70) (Fin 100) (Fin 30) (Fin 70)
                  (Fin 0) (Fin 30) inverted) [69; 30; 29; 71]%Q
  = [warning; warning; critical; safe].
Proof. reflexivity. Qed.
Example temp_cases :
  map (fun v => calculateSeverity (Fin v) (Fin 32) (Fin (355 # 10)) (Fin 30)
                  (Fin 38) (Fin 30) (Fin 38) normal) [34; 29; 365 # 10; 381 # 10]%Q
  = [safe; critical; warning; critical].
Proof. reflexivity. Qed.
Example percent_temp :
  calculatePercent (Fin (355 # 10)) (Fin 15) (Fin 45) = Fin (20500 # 300).
Proof. vm_compute. reflexivity. Qed.

End Scenarios.

(* ================================================================= *)
(** ** Comparisons on finite numbers *)

Module NumFacts.

Lemma Qle_bool_false (x y : Q) : Qle_bool x y = false -> y < x.
Proof.
  intros H. apply Qnot_le_lt. intros Hle.
  apply Qle_bool_iff in Hle. congruence.
Qed.

Lemma num_lt_Fin (x y : Q) : num_lt (Fin x) (Fin y) = negb (Qle_bool y x).
Proof. reflexivity. Qed.

Lemma num_le_Fin (x y : Q) : num_le (Fin x) (Fin y) = Qle_bool x y.
Proof. unfold num_le, num_lt, Qltb. now rewrite negb_involutive. Qed.

End NumFacts.

(** Rewrite finite comparisons into [Qle_bool] and split on each of them,
    keeping the corresponding inequality as a hypothesis. *)
Ltac split_Qle :=
  repeat match goal with
  | |- context [Qle_bool ?x ?y] =>
      let H := fresh "Hq" in
      destruct (Qle_bool x y) eqn:H;
      [apply Qle_bool_iff in H | apply NumFacts.Qle_bool_false in H]
  end.

Ltac num_to_Q :=
  repeat (rewrite ?NumFacts.num_lt_Fin, ?NumFacts.num_le_Fin in *).

(* ================================================================= *)
(** ** The classifier *)

Module Classifier.

Import TelemetryTransform.
Local Open Scope Q_scope.

(** C3: for ascending metrics a finite value is [safe] when it is at most
    [normalMax], [warning] when it lies in [(normalMax, warningMax]] and
    [critical] otherwise; for inverted metrics it is [critical] below
    [warningMin], [warning] in [[warningMin, normalMin)] and [safe]
    otherwise; a value on a zone boundary goes to the lower-severity side:
    [normalMax] is [safe] and [warningMax] is not [critical] (ascending),
    [warningMin] is not [critical] and [normalMin] is not [warning]
    (inverted). *)
Theorem calculateSeverity_ascending_inverted :
  forall v nMin nMax wMin wMax cMin cMax : Q,
    let asc x := calculateSeverity (Fin x) (Fin nMin) (Fin nMax) (Fin wMin)
                   (Fin wMax) (Fin cMin) (Fin cMax) ascending in
    let inv x := calculateSeverity (Fin x) (Fin nMin) (Fin nMax) (Fin wMin)
                   (Fin wMax) (Fin cMin) (Fin cMax) inverted in
    (asc v = safe <-> v <= nMax) /\
    (asc v = warning <-> nMax < v /\ v <= wMax) /\
    (asc v = critical <-> nMax < v /\ wMax < v) /\
    (inv v = critical <-> v < wMin) /\
    (inv v = warning <-> wMin <= v /\ v < nMin) /\
    (inv v = safe <-> wMin <= v /\ nMin <= v) /\
    asc nMax = safe /\ asc wMax <> critical /\
    inv wMin <> critical /\ inv nMin <> warning.
Proof.
  intros v nMin nMax wMin wMax cMin cMax asc inv.
  subst asc inv. cbn [calculateSeverity]. num_to_Q.
  split_Qle; cbn; repeat split; intros; try discriminate;
    try solve [lra | intuition lra].
Qed.

(** C2: for the range ([normal]) topology and finite thresholds with
    [criticalMin <= normalMin <= normalMax <= criticalMax], a finite value
    is [critical] exactly when it lies outside [[criticalMin, criticalMax]]
    (whatever the normal band), [safe] exactly when it lies in
    [[normalMin, normalMax]], and [warning] exactly in the remaining case. *)
Theorem calculateSeverity_range :
  forall v nMin nMax wMin wMax cMin cMax : Q,
    cMin <= nMin -> nMin <= nMax -> nMax <= cMax ->
    let sev := calculateSeverity (Fin v) (Fin nMin) (Fin nMax) (Fin wMin)
                 (Fin wMax) (Fin cMin) (Fin cMax) normal in
    (sev = critical <-> v < cMin \/ cMax < v) /\
    (sev = safe <-> nMin <= v /\ v <= nMax) /\
    (sev = warning <->
       ~ (v < cMin \/ cMax < v) /\ ~ (nMin <= v /\ v <= nMax)).
Proof.
  intros v nMin nMax wMin wMax cMin cMax H1 H2 H3 sev. subst sev.
  cbn [calculateSeverity]. num_to_Q.
  split_Qle; cbn; repeat split; intros; try discriminate;
    try solve [lra | intuition lra].
Qed.

End Classifier.

(* ================================================================= *)
(** ** Gauge position *)

Module Percent.

Import TelemetryTransform.
Local Open Scope Q_scope.

Lemma Math_min_Fin (a b : Q) :
  Math_min (Fin a) (Fin b) = Fin (if Qle_bool a b then a else b).
Proof.
  unfold Math_min. cbn -[Qle_bool]. unfold Qltb.
  destruct (Qle_bool a b); reflexivity.
Qed.

Lemma Math_max_Fin (a b : Q) :
  Math_max (Fin a) (Fin b) = Fin (if Qle_bool b a then a else b).
Proof.
  unfold Math_max. cbn -[Qle_bool]. unfold Qltb.
  destruct (Qle_bool b a); reflexivity.
Qed.

Lemma num_div_Fin (x y : Q) :
  ~ y == 0 -> num_div (Fin x) (Fin y) = Fin (x / y).
Proof.
  intros Hy. unfold num_div.
  destruct (Qeq_bool y 0) eqn:E; [apply Qeq_bool_iff in E; contradiction | reflexivity].
Qed.

(** The clamp of [v] to [[mn, mx]]. *)
Definition clampQ (mn mx v : Q) : Q := Qmax mn (Qmin mx v).

(** C5: for finite [value] and [min < max], [calculatePercent] returns the
    finite number [100 * (clamp(value) - min) / (max - min)], which lies in
    [[0, 100]]; in particular [calculatePercent(35.5, 15, 45) = 68.33...]
    ([205/3]). *)
Theorem calculatePercent_linear (v mn mx : Q) (Hlt : mn < mx) :
  (exists q, calculatePercent (Fin v) (Fin mn) (Fin mx) = Fin q /\
             q == 100 * (clampQ mn mx v - mn) / (mx - mn) /\
             0 <= q <= 100) /\
  (exists q, calculatePercent (Fin (355 # 10)) (Fin 15) (Fin 45) = Fin q /\
             q == 205 # 3).
Proof.
  split.
  2:{ eexists. split; [vm_compute; reflexivity | reflexivity]. }
  unfold calculatePercent. rewrite Math_min_Fin.
  set (c1 := if Qle_bool mx v then mx else v).
  rewrite Math_max_Fin.
  set (c := if Qle_bool c1 mn then mn else c1).
  assert (Hc : c == clampQ mn mx v /\ mn <= c <= mx).
  { subst c c1. unfold clampQ.
    destruct (Qle_bool mx v) eqn:E1;
      [apply Qle_bool_iff in E1 | apply NumFacts.Qle_bool_false in E1];
    [rewrite Q.min_l by lra | rewrite Q.min_r by lra];
    [destruct (Qle_bool mx mn) eqn:E2 | destruct (Qle_bool v mn) eqn:E2];
      try (apply Qle_bool_iff in E2); try (apply NumFacts.Qle_bool_false in E2);
      first [rewrite Q.max_l by lra | rewrite Q.max_r by lra]; split; try reflexivity; lra. }
  destruct Hc as [Hc [Hc1 Hc2]].
  unfold num_sub. cbn [num_neg num_add].
  rewrite num_div_Fin by (intro H; lra).
  cbn [num_mul].
  eexists. split; [reflexivity|]. split.
  - rewrite Hc. field. intro H; lra.
  - assert (Hd : 0 < mx + - mn) by lra.
    split.
    + apply Qmult_le_0_compat; [|lra].
      apply Qle_shift_div_l; [exact Hd|]. lra.
    + assert ((c + - mn) / (mx + - mn) <= 1).
      { apply Qle_shift_div_r; [exact Hd|]. lra. }
      set (X := (c + - mn) / (mx + - mn)) in *.
      assert (0 <= X) by (apply Qle_shift_div_l; [exact Hd|]; lra).
      lra.
Qed.

End Percent.

(* ================================================================= *)
(** ** Gauge segments *)

Module Gauge.

Import TelemetryTransform.
Local Open Scope string_scope.
Local Open Scope Q_scope.

(** CO2 thresholds of the spec's scenario: normal [[400, 2000]],
    warning [[2000, 4000]], display range [[400, 4000]]. *)
Definition co2_segment_thresholds : SegmentThresholds :=
  mkSegmentThresholds (Fin 400) (Fin 2000) (Fin 2000) (Fin 4000) (Fin 4000) (Fin 4000).

(** C1 fails: a CO2 reading of 1999 ppm is classified [safe], but its linear
    [calculatePercent] position (44.4) lies only in the [Warning] segment
    of the gauge the code draws. *)
Lemma classifier_segment_counterexample :
  calculateSeverity (Fin 1999) (Fin 400) (Fin 2000) (Fin 2000) (Fin 4000)
    (Fin 4000) (Fin 4000) ascending = safe /\
  map label (segments_containing (calculatePercent (Fin 1999) (Fin 400) (Fin 4000))
               (generateSimpleSegments (mkRange (Fin 400) (Fin 4000))
                  co2_segment_thresholds simple_ascending))
  = ["Warning"].
Proof. split; vm_compute; reflexivity. Qed.

(** C1 as the code does it: the gauge position the transform reports
    ([calculateSimplePercent], [calculateRangeBasedPercent]: the centre of
    the segment of the value's severity) lies in exactly one segment of the
    generated gauge, and that segment is labelled with the severity of
    [calculateSeverity]; for ascending and inverted metrics for any
    numbers, for range metrics for finite numbers with
    [criticalMin <= normalMin <= normalMax <= criticalMax]. *)
Theorem classifier_segment_agreement
  (v nMin nMax wMin wMax cMin cMax : Q) (dr vr : DisplayRange)
  (H1 : cMin <= nMin) (H2 : nMin <= nMax) (H3 : nMax <= cMax) :
  let th := mkSegmentThresholds (Fin nMin) (Fin nMax) (Fin wMin) (Fin wMax)
              (Fin cMin) (Fin cMax) in
  (forall (x a b c d e f : number),
     let th' := mkSegmentThresholds a b c d e f in
     map label (segments_containing
                  (calculateSimplePercent x (mkSimpleThresholds a b c d)
                     simple_ascending dr)
                  (generateSimpleSegments vr th' simple_ascending))
     = [severity_label (calculateSeverity x a b c d e f ascending)] /\
     map label (segments_containing
                  (calculateSimplePercent x (mkSimpleThresholds a b c d)
                     simple_inverted dr)
                  (generateSimpleSegments vr th' simple_inverted))
     = [severity_label (calculateSeverity x a b c d e f inverted)]) /\
  map label (segments_containing
               (calculateRangeBasedPercent (Fin v)
                  (mkRangeThresholds (Fin nMin) (Fin nMax) (Fin cMin) (Fin cMax)) dr)
               (generateRangeBasedSegments vr th))
  = [severity_label (calculateSeverity (Fin v) (Fin nMin) (Fin nMax) (Fin wMin)
                       (Fin wMax) (Fin cMin) (Fin cMax) normal)].
Proof.
  intros th. split.
  - intros x a b c d e f th'. cbn [calculateSimplePercent calculateSeverity
      s_normalMin s_normalMax s_warningMin s_warningMax].
    split.
    + destruct (x <=? b)%num; [vm_compute; reflexivity|].
      destruct (x <=? d)%num; vm_compute; reflexivity.
    + destruct (x <? c)%num; [vm_compute; reflexivity|].
      destruct (x <? a)%num; vm_compute; reflexivity.
  - unfold calculateRangeBasedPercent, calculateSeverity.
    cbn [r_normalMin r_normalMax r_criticalMin r_criticalMax].
    num_to_Q. split_Qle; cbn [negb andb orb];
      first [vm_compute; reflexivity | exfalso; lra].
Qed.

(** C4 fails: for CO2 the first ascending split point is [100/3], below the
    linear position [calculatePercent(normalMax = 2000)] = 44.4. *)
Lemma ascending_split_counterexample :
  match generateSimpleSegments (mkRange (Fin 400) (Fin 4000))
          co2_segment_thresholds simple_ascending with
  | s :: _ => num_lt (stop s) (calculatePercent (Fin 2000) (Fin 400) (Fin 4000)) = true
  | [] => False
  end.
Proof. vm_compute. reflexivity. Qed.

(** Width [stop - start] of a segment. *)
Definition seg_width (s : GaugeSegment) : number := num_sub (stop s) (start s).

(** C4 as the code does it: for ascending metrics [generateSimpleSegments]
    returns three segments labelled Normal, Warning, Critical, split at the
    fixed points [100/3] and [200/3] whatever the thresholds and display
    range, chaining contiguously from 0 to 100. *)
Theorem ascending_segments_fixed (vr : DisplayRange) (th : SegmentThresholds) :
  exists s1 s2 s3,
    generateSimpleSegments vr th simple_ascending = [s1; s2; s3] /\
    map label [s1; s2; s3] = ["Normal"; "Warning"; "Critical"] /\
    start s1 = Fin 0 /\ stop s1 = start s2 /\ stop s2 = start s3 /\
    stop s3 = Fin 100 /\
    (exists p, stop s1 = Fin p /\ p == 100 # 3) /\
    (exists p, stop s2 = Fin p /\ p == 200 # 3).
Proof.
  do 3 eexists. split; [reflexivity|].
  repeat split; try reflexivity;
    (eexists; split; [reflexivity | vm_compute; reflexivity]).
Qed.

(** C10: the active segment generators ignore their thresholds and value
    range arguments: [generateSimpleSegments] always returns the same three
    segments of width [100/3] (for a given type) and
    [generateRangeBasedSegments] the same five segments of width [20]. *)
Theorem segments_ignore_thresholds
  (vr1 vr2 : DisplayRange) (th1 th2 : SegmentThresholds) (ty : SimpleType) :
  generateSimpleSegments vr1 th1 ty = generateSimpleSegments vr2 th2 ty /\
  generateRangeBasedSegments vr1 th1 = generateRangeBasedSegments vr2 th2 /\
  List.length (generateSimpleSegments vr1 th1 ty) = 3%nat /\
  Forall (fun w => exists q, w = Fin q /\ q == 100 # 3)
    (map seg_width (generateSimpleSegments vr1 th1 ty)) /\
  List.length (generateRangeBasedSegments vr1 th1) = 5%nat /\
  Forall (fun w => exists q, w = Fin q /\ q == 20)
    (map seg_width (generateRangeBasedSegments vr1 th1)).
Proof.
  repeat split; try reflexivity; try (destruct ty; reflexivity);
    [destruct ty|];
    repeat constructor; (eexists; split; [reflexivity | vm_compute; reflexivity]).
Qed.

End Gauge.

(* ================================================================= *)
(** ** Non-finite inputs *)

Module NonFinite.

Import TelemetryTransform.
Local Open Scope Q_scope.

(** C8 fails: NaN is classified [critical] for an ascending metric rather
    than rejected, [+Infinity] is clamped to position 100 and NaN yields a
    NaN position, with no error raised. *)
Lemma nonfinite_counterexample :
  calculateSeverity NaN (Fin 400) (Fin 2000) (Fin 2000) (Fin 4000)
    (Fin 4000) (Fin 4000) ascending = critical /\
  (exists q, calculatePercent PosInf (Fin 0) (Fin 100) = Fin q /\ q == 100) /\
  calculatePercent NaN (Fin 0) (Fin 100) = NaN.
Proof.
  split; [reflexivity|]. split; [|reflexivity].
  eexists. split; [vm_compute; reflexivity | reflexivity].
Qed.

(** C8 as the code does it: neither [calculateSeverity] nor
    [calculatePercent] checks for non-finite input and neither throws.
    For every threshold set NaN is classified [critical] (ascending),
    [safe] (inverted) or [warning] (range); for a display range with
    [min < max], [calculatePercent] clamps [+Infinity] to 100 and
    [-Infinity] to 0, and for any display range it returns NaN for NaN;
    the segment generators return their usual segments for NaN
    thresholds. *)
Theorem nonfinite_inputs_not_rejected
  (a b c d e f : number) (mn mx : Q) (Hlt : mn < mx) :
  calculateSeverity NaN a b c d e f ascending = critical /\
  calculateSeverity NaN a b c d e f inverted = safe /\
  calculateSeverity NaN a b c d e f normal = warning /\
  (exists q, calculatePercent PosInf (Fin mn) (Fin mx) = Fin q /\ q == 100) /\
  (exists q, calculatePercent NegInf (Fin mn) (Fin mx) = Fin q /\ q == 0) /\
  (forall lo hi : number, calculatePercent NaN lo hi = NaN) /\
  (forall (vr : DisplayRange) (ty : SimpleType),
     let nan6 := mkSegmentThresholds NaN NaN NaN NaN NaN NaN in
     let fin6 := mkSegmentThresholds (Fin 0) (Fin 0) (Fin 0) (Fin 0) (Fin 0) (Fin 0) in
     generateSimpleSegments vr nan6 ty = generateSimpleSegments vr fin6 ty /\
     generateRangeBasedSegments vr nan6 = generateRangeBasedSegments vr fin6).
Proof.
  assert (Hne : ~ mx + - mn == 0) by (intro H; lra).
  assert (Hmx : Qle_bool mx mn = false).
  { destruct (Qle_bool mx mn) eqn:E; [apply Qle_bool_iff in E; lra | reflexivity]. }
  split; [|split; [|split; [|split; [|split; [|split]]]]].
  - destruct a, b, c, d, e, f; reflexivity.
  - destruct a, b, c, d, e, f; reflexivity.
  - destruct a, b, c, d, e, f; reflexivity.
  - unfold calculatePercent, Math_min, Math_max. cbn -[Qle_bool]. unfold Qltb.
    rewrite ?Hmx. cbn -[Qle_bool].
    destruct (Qeq_bool (mx + - mn) 0) eqn:E;
      [apply Qeq_bool_iff in E; contradiction | cbn].
    eexists. split; [reflexivity|]. field. exact Hne.
  - unfold calculatePercent, Math_min, Math_max. cbn -[Qle_bool]. unfold Qltb.
    rewrite ?Hmx. cbn -[Qle_bool].
    destruct (Qeq_bool (mx + - mn) 0) eqn:E;
      [apply Qeq_bool_iff in E; contradiction | cbn].
    eexists. split; [reflexivity|]. field. exact Hne.
  - intros lo hi. unfold calculatePercent, Math_min, Math_max.
    destruct lo, hi; reflexivity.
  - intros vr ty nan6 fin6. split; reflexivity.
Qed.

End NonFinite.

(* ================================================================= *)
(** ** Weight severity *)

Module Weight.

Import TelemetryTransform.
Local Open Scope string_scope.

(** The severity of the metric with a given id in the transform's output. *)
Definition severity_of (metricId : string) (ms : list Metric) : option Severity :=
  option_map m_severity (find (fun m => String.eqb (m_id m) metricId) ms).

(** C9: [transformTelemetryToMetrics] reports the weight metric as [safe]
    for every telemetry sample and threshold set, so the weight value and
    thresholds never change the weight severity. *)
Theorem weight_severity_always_safe (t1 t2 : Telemetry) (th1 th2 : Thresholds) :
  severity_of "weight" (transformTelemetryToMetrics t1 th1) = Some safe /\
  severity_of "weight" (transformTelemetryToMetrics t1 th1)
  = severity_of "weight" (transformTelemetryToMetrics t2 th2).
Proof. split; reflexivity. Qed.

End Weight.

(* ================================================================= *)
(** ** Auto-adjustment and validation *)

Module AutoAdjust.

Import MetricsConfig.
Local Open Scope Q_scope.

Lemma Math_min_Fin_spec (a b : Q) :
  exists c, Math_min (Fin a) (Fin b) = Fin c /\ c <= a /\ c <= b /\ (c == a \/ c == b).
Proof.
  rewrite Percent.Math_min_Fin. eexists. split; [reflexivity|].
  destruct (Qle_bool a b) eqn:E;
    [apply Qle_bool_iff in E | apply NumFacts.Qle_bool_false in E];
    (split; [lra | split; [lra |]]); [left | right]; reflexivity.
Qed.

Lemma Math_max_Fin_spec (a b : Q) :
  exists c, Math_max (Fin a) (Fin b) = Fin c /\ a <= c /\ b <= c /\ (c == a \/ c == b).
Proof.
  rewrite Percent.Math_max_Fin. eexists. split; [reflexivity|].
  destruct (Qle_bool b a) eqn:E;
    [apply Qle_bool_iff in E | apply NumFacts.Qle_bool_false in E];
    (split; [lra | split; [lra |]]); [left | right]; reflexivity.
Qed.

Lemma num_lt_Fin_false (a b : Q) : b <= a -> num_lt (Fin a) (Fin b) = false.
Proof.
  intros H. rewrite NumFacts.num_lt_Fin.
  apply Qle_bool_iff in H. now rewrite H.
Qed.

Lemma num_lt_Fin_true (a b : Q) : num_lt (Fin a) (Fin b) = false -> b <= a.
Proof.
  rewrite NumFacts.num_lt_Fin. destruct (Qle_bool b a) eqn:E; [|discriminate].
  intros _. now apply Qle_bool_iff.
Qed.

(** The per-metric constants: every warning span is finite and
    non-negative, and so is the range extension [warningExtension || 10]. *)
Lemma config_constants (metricId : string) (cfg : MetricConfig) :
  METRICS_CONFIG metricId = Some cfg ->
  (exists s, warningSpan cfg = Fin s /\ 0 <= s) /\
  (exists e, or_default (warningExtension cfg) (Fin 10) = Fin e /\ 0 <= e).
Proof.
  unfold METRICS_CONFIG. simpl find. intros Hc.
  repeat match type of Hc with
  | (if ?b then _ else _) = _ => destruct b
  end; try discriminate; injection Hc as <-;
    split; eexists; (split; [reflexivity | lra]).
Qed.

Lemma config_type_is_Some (metricId : string) (cfg : MetricConfig) (t : MetricType) :
  METRICS_CONFIG metricId = Some cfg -> type cfg = t ->
  config_type_is (METRICS_CONFIG metricId) t = true.
Proof. intros Hc Ht. rewrite Hc. unfold config_type_is. rewrite Ht. now destruct t. Qed.

Lemma validateNormalRange_valid (metricId : string) (a b c d : number) :
  valid (validateNormalRange metricId a b c d) = true ->
  num_lt b a = false /\ num_lt a c = false /\ num_lt d b = false /\
  num_lt (num_sub b a) (minSpan_of (METRICS_CONFIG metricId)) = false.
Proof.
  unfold validateNormalRange. cbn zeta.
  destruct (num_lt b a), (num_lt a c), (num_lt d b),
    (num_lt (num_sub b a) (minSpan_of (METRICS_CONFIG metricId)));
    cbn; intros H; try discriminate; auto.
Qed.

Ltac lt_false :=
  repeat match goal with
  | |- context [num_lt (Fin ?a) (Fin ?b)] => rewrite (num_lt_Fin_false a b) by lra
  end.

(** C6: for an ascending metric of the configuration with warning span [s],
    auto-adjusting an edited [normalMax] against [displayMax] gives
    [warningMin = normalMax], [warningMax = min(displayMax, normalMax + s)],
    [criticalMin = warningMax] and [criticalMax = displayMax]; for CO2 with
    [normalMax = 1800] and [displayMax = 4000] this is warning
    [[1800, 2300]] and critical [[2300, 4000]]. *)
Theorem autoAdjustAscending_rule (metricId : string) (cfg : MetricConfig)
  (s nMax dMax : Q)
  (Hc : METRICS_CONFIG metricId = Some cfg) (Ht : type cfg = ascending)
  (Hs : warningSpan cfg = Fin s) :
  (exists w,
     autoAdjustAscendingThresholds metricId (Fin nMax) (Fin dMax)
     = Ok (mkAdjusted (Fin nMax) (Fin w) (Fin w) (Fin dMax)) /\
     w == Qmin dMax (nMax + s)) /\
  (exists w,
     autoAdjustAscendingThresholds "co2" (Fin 1800) (Fin 4000)
     = Ok (mkAdjusted (Fin 1800) (Fin w) (Fin w) (Fin 4000)) /\ w == 2300).
Proof.
  split.
  - unfold autoAdjustAscendingThresholds. rewrite Hc, Ht. cbn -[Math_min].
    rewrite Hs. cbn [num_add]. rewrite Percent.Math_min_Fin.
    eexists. split; [reflexivity|].
    destruct (Qle_bool dMax (nMax + s)) eqn:E;
      [apply Qle_bool_iff in E | apply NumFacts.Qle_bool_false in E].
    + rewrite Q.min_l by exact E. reflexivity.
    + rewrite Q.min_r by lra. reflexivity.
  - eexists. split; [vm_compute; reflexivity | reflexivity].
Qed.

(** C7: for every metric of the configuration and every edited normal
    range accepted by [validateNormalRange], the auto-adjust step of the
    configuration UI succeeds and [validateThresholds] accepts the
    resulting threshold set (same normal range and display range). *)
Theorem autoAdjust_round_trip (metricId : string) (cfg : MetricConfig)
  (nMin nMax dMin dMax : Q)
  (Hc : METRICS_CONFIG metricId = Some cfg)
  (Hv : valid (validateNormalRange metricId (Fin nMin) (Fin nMax) (Fin dMin) (Fin dMax))
        = true) :
  exists a,
    autoAdjustForType metricId (Fin nMin) (Fin nMax) (Fin dMin) (Fin dMax) = Some a /\
    valid (validateThresholds metricId (Fin nMin) (Fin nMax)
             (a_warningMin a) (a_warningMax a) (a_criticalMin a) (a_criticalMax a)
             (Fin dMin) (Fin dMax)) = true.
Proof.
  pose proof (validateNormalRange_valid _ _ _ _ _ Hv) as (E1 & E2 & E3 & HS).
  apply num_lt_Fin_true in E1, E2, E3.
  destruct (config_constants _ _ Hc) as [[s [Hs Hs0]] [e [He He0]]].
  unfold autoAdjustForType. rewrite Hv. cbn [negb]. rewrite Hc.
  destruct (type cfg) eqn:Ht.
  - destruct (Math_min_Fin_spec dMax (nMax + s)) as (w & Hw & Hw1 & Hw2 & Hw3).
    exists (mkAdjusted (Fin nMax) (Fin w) (Fin w) (Fin dMax)). split.
    + unfold autoAdjustAscendingThresholds. rewrite Hc, Ht. cbn -[Math_min].
      rewrite Hs. cbn [num_add]. rewrite Hw. reflexivity.
    + cbn [a_warningMin a_warningMax a_criticalMin a_criticalMax].
      unfold validateThresholds. cbv beta zeta.
      rewrite (config_type_is_Some _ _ _ Hc Ht). rewrite HS.
      assert (nMax <= w) by (destruct Hw3 as [Hw3|Hw3]; rewrite Hw3; lra).
      lt_false. reflexivity.
  - destruct (Math_max_Fin_spec dMin (nMin + - s)) as (w & Hw & Hw1 & Hw2 & Hw3).
    exists (mkAdjusted (Fin w) (Fin nMin) (Fin dMin) (Fin w)). split.
    + unfold autoAdjustInvertedThresholds. rewrite Hc, Ht. cbn -[Math_max].
      rewrite Hs. unfold num_sub. cbn [num_neg num_add]. rewrite Hw. reflexivity.
    + cbn [a_warningMin a_warningMax a_criticalMin a_criticalMax].
      unfold validateThresholds. cbv beta zeta.
      rewrite (config_type_is_Some _ _ _ Hc Ht).
      assert (Ha : config_type_is (METRICS_CONFIG metricId) ascending = false)
        by (rewrite Hc; unfold config_type_is; now rewrite Ht).
      rewrite Ha, HS.
      assert (w <= nMin) by (destruct Hw3 as [Hw3|Hw3]; rewrite Hw3; lra).
      lt_false. reflexivity.
  - destruct (Math_max_Fin_spec dMin (nMin + - e)) as (w1 & Hw & Hw1 & Hw2 & Hw3).
    destruct (Math_min_Fin_spec dMax (nMax + e)) as (w2 & Hw' & Hw1' & Hw2' & Hw3').
    exists (mkAdjusted (Fin w1) (Fin w2) (Fin w1) (Fin w2)). split.
    + unfold autoAdjustRangeThresholds. rewrite Hc, Ht. cbn -[Math_max Math_min or_default].
      rewrite He. unfold num_sub. cbn [num_neg num_add]. rewrite Hw, Hw'. reflexivity.
    + cbn [a_warningMin a_warningMax a_criticalMin a_criticalMax].
      unfold validateThresholds. cbv beta zeta.
      rewrite (config_type_is_Some _ _ _ Hc Ht).
      assert (Ha : config_type_is (METRICS_CONFIG metricId) ascending = false)
        by (rewrite Hc; unfold config_type_is; now rewrite Ht).
      assert (Hi : config_type_is (METRICS_CONFIG metricId) inverted = false)
        by (rewrite Hc; unfold config_type_is; now rewrite Ht).
      rewrite Ha, Hi, HS.
      assert (w1 <= nMin) by (destruct Hw3 as [Hw3|Hw3]; rewrite Hw3; lra).
      assert (nMax <= w2) by (destruct Hw3' as [Hw3'|Hw3']; rewrite Hw3'; lra).
      lt_false. reflexivity.
Qed.

End AutoAdjust.

(* ================================================================= *)
(** ** Further properties of the transforms, the configuration and the editors *)

Module OrderFacts.

Lemma num_lt_le_trans (v w : Q) (t : number) :
  v <= w -> num_lt (Fin w) t = true -> num_lt (Fin v) t = true.
Proof.
  intros Hvw. destruct t as [q| | |]; try reflexivity; try discriminate.
  num_to_Q. intros H.
  destruct (Qle_bool q w) eqn:E; [discriminate|]. apply NumFacts.Qle_bool_false in E.
  destruct (Qle_bool q v) eqn:E'; [apply Qle_bool_iff in E'; lra | reflexivity].
Qed.

Lemma num_le_le_trans (v w : Q) (t : number) :
  v <= w -> num_le (Fin w) t = true -> num_le (Fin v) t = true.
Proof.
  intros Hvw. destruct t as [q| | |]; try reflexivity; try discriminate.
  num_to_Q. intros H. apply Qle_bool_iff in H. apply Qle_bool_iff. lra.
Qed.

End OrderFacts.

Ltac close_by_order Hvw :=
  match goal with
  | H1 : num_lt (Fin ?w) ?t = true, H2 : num_lt (Fin ?v) ?t = false |- _ =>
      rewrite (OrderFacts.num_lt_le_trans v w t Hvw H1) in H2; discriminate
  | H1 : num_le (Fin ?w) ?t = true, H2 : num_le (Fin ?v) ?t = false |- _ =>
      rewrite (OrderFacts.num_le_le_trans v w t Hvw H1) in H2; discriminate
  end.

Module TransformFacts.
Import TelemetryTransform.

(** The gauge positions of the active transform never decrease as a finite
    reading grows: for fixed thresholds, [v <= w] implies that the
    position of [v] is at most the position of [w], for
    [calculateRangeBasedPercent] and for [calculateSimplePercent] of both
    types. *)
Theorem gauge_position_monotone (v w : Q) (Hvw : v <= w) (a b c d : number)
  (dr : DisplayRange) :
  num_le (calculateRangeBasedPercent (Fin v) (mkRangeThresholds a b c d) dr)
         (calculateRangeBasedPercent (Fin w) (mkRangeThresholds a b c d) dr) = true /\
  num_le (calculateSimplePercent (Fin v) (mkSimpleThresholds a b c d) simple_ascending dr)
         (calculateSimplePercent (Fin w) (mkSimpleThresholds a b c d) simple_ascending dr)
  = true /\
  num_le (calculateSimplePercent (Fin v) (mkSimpleThresholds a b c d) simple_inverted dr)
         (calculateSimplePercent (Fin w) (mkSimpleThresholds a b c d) simple_inverted dr)
  = true.
Proof.
  unfold calculateRangeBasedPercent, calculateSimplePercent.
  cbn [r_normalMin r_normalMax r_criticalMin r_criticalMax
       s_normalMin s_normalMax s_warningMin s_warningMax].
  repeat split;
  repeat match goal with
  | |- context [if ?x then _ else _] => let E := fresh "E" in destruct x eqn:E
  end; first [vm_compute; reflexivity | close_by_order Hvw].
Qed.


Lemma simple_percent_bounds (x : number) (th : SimpleThresholds) (ty : SimpleType)
  (dr : DisplayRange) :
  exists q, calculateSimplePercent x th ty dr = Fin q /\ 10 <= q <= 90.
Proof.
  unfold calculateSimplePercent.
  destruct ty; repeat match goal with
  | |- context [if ?x then _ else _] => destruct x
  end; eexists; (split; [reflexivity | lra]).
Qed.

Lemma range_percent_bounds (x : number) (th : RangeThresholds) (dr : DisplayRange) :
  exists q, calculateRangeBasedPercent x th dr = Fin q /\ 10 <= q <= 90.
Proof.
  unfold calculateRangeBasedPercent.
  repeat match goal with
  | |- context [if ?x then _ else _] => destruct x
  end; eexists; (split; [reflexivity | lra]).
Qed.

(** [transformTelemetryToMetrics] always returns the eight metrics temp,
    humidity, weight, activity, co2, honey, swarm, battery in this order,
    with five gauge segments for the first four and three for the others,
    and every reported percent is a finite number in [[10, 90]], whatever
    the telemetry and thresholds (NaN and infinities included). *)
Theorem transform_shape (t : Telemetry) (th : Thresholds) :
  map m_id (transformTelemetryToMetrics t th)
  = ["temp"; "humidity"; "weight"; "activity"; "co2"; "honey"; "swarm"; "battery"]%string /\
  map (fun m => List.length (m_segments m)) (transformTelemetryToMetrics t th)
  = [5; 5; 5; 5; 3; 3; 3; 3]%nat /\
  Forall (fun m => exists q, m_percent m = Fin q /\ 10 <= q <= 90)
    (transformTelemetryToMetrics t th).
Proof.
  split; [reflexivity|]. split; [reflexivity|].
  unfold transformTelemetryToMetrics. cbv zeta.
  repeat constructor; cbn [m_percent];
    first [apply range_percent_bounds | apply simple_percent_bounds].
Qed.


End TransformFacts.

Module CardFacts.
Import TelemetryTransform GaugeCard.

(** For co2, honey, swarm and battery the status the gauge card derives from
    its percent and segments ([currentStatus]) equals the severity the
    transform reports, for every telemetry and threshold set. *)
Theorem card_status_simple_metrics (t : Telemetry) (th : Thresholds) :
  Forall (fun k => option_map card_status (metric_by_id k (transformTelemetryToMetrics t th))
                   = option_map m_severity (metric_by_id k (transformTelemetryToMetrics t th)))
    ["co2"; "honey"; "swarm"; "battery"]%string.
Proof.
  unfold metric_by_id, transformTelemetryToMetrics. cbv zeta.
  repeat constructor; cbn [find m_id String.eqb Ascii.eqb Bool.eqb option_map card_status
     m_percent m_severity m_segments calculateSimplePercent calculateSeverity
     s_normalMin s_normalMax s_warningMin s_warningMax];
  f_equal;
  repeat match goal with
  | |- context [if ?x then _ else _] => destruct x
  end; vm_compute; reflexivity.
Qed.

(** For a range metric of the active transform with finite thresholds
    [criticalMin <= normalMin <= normalMax <= criticalMax] and a finite
    reading, the gauge card's [currentStatus] on the transform's position
    and segments equals [calculateSeverity]. *)
Theorem card_status_range_metrics
  (v nMin nMax wMin wMax cMin cMax : Q) (dr vr : DisplayRange)
  (H1 : cMin <= nMin) (H2 : nMin <= nMax) (H3 : nMax <= cMax) :
  currentStatus (currentSegment
    (calculateRangeBasedPercent (Fin v)
       (mkRangeThresholds (Fin nMin) (Fin nMax) (Fin cMin) (Fin cMax)) dr)
    (generateRangeBasedSegments vr
       (mkSegmentThresholds (Fin nMin) (Fin nMax) (Fin wMin) (Fin wMax)
          (Fin cMin) (Fin cMax))))
  = calculateSeverity (Fin v) (Fin nMin) (Fin nMax) (Fin wMin) (Fin wMax)
      (Fin cMin) (Fin cMax) normal.
Proof.
  unfold calculateRangeBasedPercent, calculateSeverity.
  cbn [r_normalMin r_normalMax r_criticalMin r_criticalMax].
  num_to_Q. split_Qle; cbn [negb andb orb];
    first [vm_compute; reflexivity | exfalso; lra].
Qed.

(** A NaN reading of a range metric is placed at the critical-high centre
    90, which lies only in the second Critical segment; in the transform
    the temperature metric for a NaN reading has percent 90, severity
    [warning], and the gauge card's [currentStatus] is [critical]. *)
Theorem nan_reading_range_gauge (a b c d e f : number) (dr vr : DisplayRange)
  (h w s co sw ba : number) (g : option number) (th : Thresholds) :
  calculateRangeBasedPercent NaN (mkRangeThresholds a b e f) dr = criticalHighCenter /\
  map label (segments_containing criticalHighCenter
               (generateRangeBasedSegments vr (mkSegmentThresholds a b c d e f)))
  = ["Critical"%string] /\
  option_map (fun m => (m_percent m, m_severity m, card_status m))
    (metric_by_id "temp" (transformTelemetryToMetrics (mkTelemetry NaN h w s co g sw ba) th))
  = Some (criticalHighCenter, warning, critical).
Proof.
  split; [|split].
  - destruct a, b, e, f; reflexivity.
  - vm_compute. reflexivity.
  - unfold metric_by_id, transformTelemetryToMetrics. cbv zeta.
    cbn [find m_id String.eqb Ascii.eqb Bool.eqb option_map].
    cbn [m_percent m_severity].
    unfold calculateRangeBasedPercent, calculateSeverity.
    cbn [r_normalMin r_normalMax r_criticalMin r_criticalMax num_lt num_le orb andb].
    unfold card_status. cbn [m_percent m_segments].
    destruct (tempNormalMin th), (tempNormalMax th), (tempCriticalMin th),
      (tempCriticalMax th); vm_compute; reflexivity.
Qed.

(** For a finite weight reading the gauge card's [currentStatus] is the
    range classification against the fixed band 28 - 52 kg (critical
    outside 24 - 56 kg), while the weight metric's severity is always
    [safe]. *)
Theorem weight_card_status (v : Q) (a b c d e g : number) (o : option number)
  (th : Thresholds) :
  option_map (fun m => (card_status m, m_severity m))
    (metric_by_id "weight" (transformTelemetryToMetrics (mkTelemetry a b (Fin v) c d o e g) th))
  = Some (calculateSeverity (Fin v) (Fin 28) (Fin 52) (Fin 24) (Fin 56) (Fin 24) (Fin 56)
            normal, safe).
Proof.
  unfold metric_by_id, transformTelemetryToMetrics. cbv zeta.
  cbn [find m_id String.eqb Ascii.eqb Bool.eqb option_map].
  unfold card_status. cbn [m_percent m_segments m_severity].
  unfold calculateRangeBasedPercent, calculateSeverity.
  cbn [r_normalMin r_normalMax r_criticalMin r_criticalMax weightKg].
  num_to_Q. split_Qle; cbn [negb andb orb];
    first [vm_compute; reflexivity | exfalso; lra].
Qed.

End CardFacts.

Module ConfigFacts.
Import MetricsConfig ConfigHelpers.
Local Open Scope string_scope.

(** Every key is one of the eight ids, or no configuration exists. *)
Lemma METRICS_CONFIG_cases (k : string) :
  (k = "temp" /\ METRICS_CONFIG k = Some temp_cfg) \/
  (k = "humidity" /\ METRICS_CONFIG k = Some humidity_cfg) \/
  (k = "activity" /\ METRICS_CONFIG k = Some activity_cfg) \/
  (k = "co2" /\ METRICS_CONFIG k = Some co2_cfg) \/
  (k = "swarm" /\ METRICS_CONFIG k = Some swarm_cfg) \/
  (k = "battery" /\ METRICS_CONFIG k = Some battery_cfg) \/
  (k = "honey" /\ METRICS_CONFIG k = Some honey_cfg) \/
  (k = "weight" /\ METRICS_CONFIG k = Some weight_cfg) \/
  (~ In k getAllMetricIds /\ METRICS_CONFIG k = None).
Proof.
  destruct (string_dec k "temp") as [->|n1]; [left; split; reflexivity|].
  destruct (string_dec k "humidity") as [->|n2]; [do 1 right; left; split; reflexivity|].
  destruct (string_dec k "activity") as [->|n3]; [do 2 right; left; split; reflexivity|].
  destruct (string_dec k "co2") as [->|n4]; [do 3 right; left; split; reflexivity|].
  destruct (string_dec k "swarm") as [->|n5]; [do 4 right; left; split; reflexivity|].
  destruct (string_dec k "battery") as [->|n6]; [do 5 right; left; split; reflexivity|].
  destruct (string_dec k "honey") as [->|n7]; [do 6 right; left; split; reflexivity|].
  destruct (string_dec k "weight") as [->|n8]; [do 7 right; left; split; reflexivity|].
  do 8 right. split.
  - unfold getAllMetricIds. cbn. intuition congruence.
  - unfold METRICS_CONFIG. cbn [find id temp_cfg humidity_cfg activity_cfg co2_cfg
      swarm_cfg battery_cfg honey_cfg weight_cfg].
    repeat match goal with
    | |- context [String.eqb ?s k] =>
        let E := fresh in
        destruct (String.eqb s k) eqn:E; [apply String.eqb_eq in E; congruence|]
    end. reflexivity.
Qed.


(** [isAscendingMetric] holds exactly for co2 and swarm,
    [isInvertedMetric] exactly for battery and honey, [isRangeMetric]
    exactly for temp, humidity, activity and weight; every other key has
    none of the three types. *)
Theorem metric_type_partition (k : string) :
  (isAscendingMetric k = true <-> In k ["co2"; "swarm"]) /\
  (isInvertedMetric k = true <-> In k ["battery"; "honey"]) /\
  (isRangeMetric k = true <-> In k ["temp"; "humidity"; "activity"; "weight"]).
Proof.
  unfold isAscendingMetric, isInvertedMetric, isRangeMetric.
  destruct (METRICS_CONFIG_cases k) as
    [[-> ->]|[[-> ->]|[[-> ->]|[[-> ->]|[[-> ->]|[[-> ->]|[[-> ->]|[[-> ->]|[Hn ->]]]]]]]]];
    cbn; try (intuition discriminate).
  unfold getAllMetricIds in Hn. cbn in Hn. intuition discriminate.
Qed.

(** Each auto-adjust function throws exactly when the id is unknown or of
    another type, with the message
    ["Invalid metric ID or type for <type> adjustment: " ++ id]. *)
Theorem autoAdjust_error_messages (k : string) (x y z u : number) :
  thrown_message (autoAdjustAscendingThresholds k x y)
  = (if isAscendingMetric k then None
     else Some ("Invalid metric ID or type for ascending adjustment: " ++ k)) /\
  thrown_message (autoAdjustInvertedThresholds k x y)
  = (if isInvertedMetric k then None
     else Some ("Invalid metric ID or type for inverted adjustment: " ++ k)) /\
  thrown_message (autoAdjustRangeThresholds k x y z u)
  = (if isRangeMetric k then None
     else Some ("Invalid metric ID or type for range adjustment: " ++ k)).
Proof.
  unfold autoAdjustAscendingThresholds, autoAdjustInvertedThresholds,
    autoAdjustRangeThresholds, isAscendingMetric, isInvertedMetric, isRangeMetric,
    config_type_is.
  destruct (METRICS_CONFIG k) as [c|]; [destruct (type c)|]; repeat split.
Qed.

Local Open Scope Q_scope.

(** When a finite normal range lies inside the display range, every
    successful auto-adjustment keeps the warning and critical bounds inside
    the display range and outside the normal range: ascending gives
    warning [[normalMax, w]] and critical [[w, displayMax]] with
    [normalMax <= w <= displayMax]; inverted gives warning
    [[w, normalMin]] and critical [[displayMin, w]] with
    [displayMin <= w <= normalMin]; range gives warning and critical both
    [[w1, w2]] with [displayMin <= w1 <= normalMin] and
    [normalMax <= w2 <= displayMax]. *)
Theorem autoAdjust_zones_nested (k : string) (nMin nMax dMin dMax : Q)
  (Hmin : dMin <= nMin) (Hmax : nMax <= dMax) :
  match autoAdjustAscendingThresholds k (Fin nMax) (Fin dMax) with
  | Ok a => exists w, a = mkAdjusted (Fin nMax) (Fin w) (Fin w) (Fin dMax) /\
                      nMax <= w <= dMax
  | Throw _ => True
  end /\
  match autoAdjustInvertedThresholds k (Fin nMin) (Fin dMin) with
  | Ok a => exists w, a = mkAdjusted (Fin w) (Fin nMin) (Fin dMin) (Fin w) /\
                      dMin <= w <= nMin
  | Throw _ => True
  end /\
  match autoAdjustRangeThresholds k (Fin nMin) (Fin nMax) (Fin dMin) (Fin dMax) with
  | Ok a => exists w1 w2, a = mkAdjusted (Fin w1) (Fin w2) (Fin w1) (Fin w2) /\
                          dMin <= w1 <= nMin /\ nMax <= w2 <= dMax
  | Throw _ => True
  end.
Proof.
  unfold autoAdjustAscendingThresholds, autoAdjustInvertedThresholds,
    autoAdjustRangeThresholds.
  destruct (METRICS_CONFIG k) as [c|] eqn:Hc; [|repeat split].
  destruct (AutoAdjust.config_constants _ _ Hc) as [[s [Hs Hs0]] [e [He He0]]].
  rewrite Hs, He.
  split; [|split].
  - destruct (MetricType_eqb (type c) ascending); cbn [negb]; [|exact I].
    destruct (AutoAdjust.Math_min_Fin_spec dMax (nMax + s)) as (w & Hw & Hw1 & Hw2 & Hw3).
    cbn [num_add]. rewrite Hw. exists w. split; [reflexivity|].
    destruct Hw3 as [Hw3|Hw3]; rewrite Hw3 in *; lra.
  - destruct (MetricType_eqb (type c) inverted); cbn [negb]; [|exact I].
    destruct (AutoAdjust.Math_max_Fin_spec dMin (nMin + - s)) as (w & Hw & Hw1 & Hw2 & Hw3).
    unfold num_sub. cbn [num_neg num_add]. rewrite Hw. exists w. split; [reflexivity|].
    destruct Hw3 as [Hw3|Hw3]; rewrite Hw3 in *; lra.
  - destruct (MetricType_eqb (type c) range); cbn [negb]; [|exact I].
    destruct (AutoAdjust.Math_max_Fin_spec dMin (nMin + - e)) as (w1 & Hw & Hw1 & Hw2 & Hw3).
    destruct (AutoAdjust.Math_min_Fin_spec dMax (nMax + e)) as (w2 & Hw' & Hw1' & Hw2' & Hw3').
    unfold num_sub. cbn [num_neg num_add]. rewrite Hw, Hw'. exists w1, w2.
    split; [reflexivity|].
    destruct Hw3 as [Hw3|Hw3]; destruct Hw3' as [Hw3'|Hw3']; rewrite Hw3, Hw3' in *; lra.
Qed.

End ConfigFacts.

Module ValidationFacts.
Import MetricsConfig ConfigHelpers.

Lemma valid_concat (l : list (list ValidationError)) :
  (match List.concat l with [] => true | _ => false end) = true <->
  Forall (fun x => x = []) l.
Proof.
  induction l as [|x l IH]; cbn.
  - split; constructor.
  - rewrite Forall_cons_iff, <- IH. destruct x; cbn; [tauto|].
    split; [discriminate | intros [H _]; discriminate].
Qed.

Lemma push_if_nil (b : bool) (e : ValidationError) : push_if b e = [] <-> b = false.
Proof. destruct b; cbn; split; congruence. Qed.

Lemma app_nil_iff' (l1 l2 : list ValidationError) : app l1 l2 = [] <-> l1 = [] /\ l2 = [].
Proof. destruct l1, l2; cbn; split; intuition congruence. Qed.

Lemma lt_false_iff (a b : Q) : num_lt (Fin a) (Fin b) = false <-> b <= a.
Proof.
  split; [apply AutoAdjust.num_lt_Fin_true | apply AutoAdjust.num_lt_Fin_false].
Qed.

Lemma orb_false (a b : bool) : (a || b)%bool = false <-> a = false /\ b = false.
Proof. destruct a, b; cbn; intuition congruence. Qed.

(** For finite numbers [validateThresholds] accepts exactly when each range
    is ordered, the normal range is inside the display range, the zones
    are placed as the metric's type requires, and the normal range is at
    least the metric's minimum span wide. *)
Theorem validateThresholds_finite_iff (k : string)
  (nMin nMax wMin wMax cMin cMax dMin dMax ms : Q)
  (Hms : minSpan_of (METRICS_CONFIG k) = Fin ms) :
  valid (validateThresholds k (Fin nMin) (Fin nMax) (Fin wMin) (Fin wMax)
           (Fin cMin) (Fin cMax) (Fin dMin) (Fin dMax)) = true <->
  nMin <= nMax /\ wMin <= wMax /\ cMin <= cMax /\ dMin <= nMin /\ nMax <= dMax /\
  (if isAscendingMetric k then nMax <= wMin /\ wMax <= cMin
   else if isInvertedMetric k then wMax <= nMin /\ cMax <= wMin
   else if isRangeMetric k then
     wMin <= nMin /\ nMax <= wMax /\ cMin <= wMin /\ wMax <= cMax
   else True) /\
  ms <= nMax - nMin.
Proof.
  unfold validateThresholds, isAscendingMetric, isInvertedMetric, isRangeMetric.
  cbv beta zeta. cbn [valid]. rewrite valid_concat.
  rewrite !Forall_cons_iff. rewrite Hms.
  unfold num_sub. cbn [num_neg num_add].
  rewrite !push_if_nil, !orb_false, !lt_false_iff.
  unfold Qminus.
  destruct (config_type_is (METRICS_CONFIG k) ascending);
  [|destruct (config_type_is (METRICS_CONFIG k) inverted);
    [|destruct (config_type_is (METRICS_CONFIG k) range)]];
    rewrite ?app_nil_iff', ?push_if_nil, ?orb_false, ?lt_false_iff;
    split; intros H;
    repeat match goal with
    | H : _ /\ _ |- _ => destruct H
    | H : Forall _ [] |- _ => clear H
    end;
    repeat first [ split | constructor | assumption | reflexivity | apply Forall_nil ];
    try assumption.
Qed.

(** For finite numbers [validateNormalRange] accepts exactly when
    [normalMin <= normalMax], the normal range is inside the display
    range, and it is at least the metric's minimum span wide. *)
Theorem validateNormalRange_finite_iff (k : string) (nMin nMax dMin dMax ms : Q)
  (Hms : minSpan_of (METRICS_CONFIG k) = Fin ms) :
  valid (validateNormalRange k (Fin nMin) (Fin nMax) (Fin dMin) (Fin dMax)) = true <->
  nMin <= nMax /\ dMin <= nMin /\ nMax <= dMax /\ ms <= nMax - nMin.
Proof.
  unfold validateNormalRange. cbv beta zeta. cbn [valid]. rewrite valid_concat.
  rewrite !Forall_cons_iff. rewrite Hms.
  unfold num_sub. cbn [num_neg num_add].
  rewrite !push_if_nil, !lt_false_iff. unfold Qminus.
  split; intros H;
    repeat match goal with
    | H : _ /\ _ |- _ => destruct H
    end;
    repeat first [ split | assumption | apply Forall_nil ].
Qed.

Lemma minSpan_positive (k : string) :
  exists ms, minSpan_of (METRICS_CONFIG k) = Fin ms /\ 0 < ms.
Proof.
  unfold minSpan_of. destruct (METRICS_CONFIG k) as [c|].
  - destruct (String.eqb (unit c) "%" || String.eqb (unit c) EmptyString)%bool;
      eexists; (split; [reflexivity | lra]).
  - eexists; (split; [reflexivity | lra]).
Qed.

(** Any threshold set that [validateThresholds] accepts has a normal range
    that [validateNormalRange] accepts (for all numbers, not only finite
    ones). *)
Theorem validateThresholds_implies_normalRange (k : string)
  (nMin nMax wMin wMax cMin cMax dMin dMax : number)
  (H : valid (validateThresholds k nMin nMax wMin wMax cMin cMax dMin dMax) = true) :
  valid (validateNormalRange k nMin nMax dMin dMax) = true.
Proof.
  revert H. unfold validateThresholds, validateNormalRange. cbv beta zeta.
  cbn [valid]. rewrite !valid_concat, !Forall_cons_iff, !push_if_nil, !orb_false.
  intros H.
  repeat match goal with
  | H : _ /\ _ |- _ => destruct H
  end;
  repeat first [ split | assumption | apply Forall_nil ].
Qed.

(** Both validators accept NaN thresholds, for every metric id and display
    range: every comparison with NaN is false, so no error is pushed. *)
Theorem nan_thresholds_accepted (k : string) (dMin dMax : number) :
  valid (validateNormalRange k NaN NaN dMin dMax) = true /\
  valid (validateThresholds k NaN NaN NaN NaN NaN NaN dMin dMax) = true.
Proof.
  unfold validateThresholds, validateNormalRange. cbv beta zeta. cbn [valid].
  generalize (METRICS_CONFIG k) as cfg. intros cfg.
  destruct (config_type_is cfg ascending);
    [|destruct (config_type_is cfg inverted);
      [|destruct (config_type_is cfg range)]];
    destruct dMin, dMax; split; reflexivity.
Qed.

End ValidationFacts.

Module EditorFacts.
Import MetricsConfig ConfigHelpers MetricThreshold.

Lemma handler_errors (k : string) (mn mx : number) (st : State) :
  validationErrors (handleNormalRangeChange k mn mx st)
  = errors (validateNormalRange k (fst (normalRange st)) (snd (normalRange st)) mn mx).
Proof.
  unfold handleNormalRangeChange. cbv zeta.
  destruct (valid _); cbn [negb]; [|reflexivity].
  destruct (metricConfig k) as [c|]; [|reflexivity].
  destruct (allowManualThresholds c); [reflexivity|].
  destruct (if MetricType_eqb (type c) ascending then _ else _); reflexivity.
Qed.

Lemma Forall_concat_lists (P : ValidationError -> Prop) (l : list (list ValidationError)) :
  Forall (Forall P) l -> Forall P (List.concat l).
Proof.
  induction 1 as [|x l Hx _ IH]; cbn; [constructor|].
  apply Forall_app; split; assumption.
Qed.

Lemma Forall_push_if (P : ValidationError -> Prop) (b : bool) (e : ValidationError) :
  P e -> Forall P (push_if b e).
Proof. intros H. destruct b; cbn; repeat constructor; exact H. Qed.

Lemma normalRange_errors_field (k : string) (a b c d : number) :
  Forall (fun e => field e = "normal"%string) (errors (validateNormalRange k a b c d)).
Proof.
  unfold validateNormalRange. cbv beta zeta. cbn [errors].
  apply Forall_concat_lists.
  repeat constructor; apply Forall_push_if; reflexivity.
Qed.

(** The normal slider never produces an error message for the warning or
    critical fields: [getFieldError "warning"] and
    [getFieldError "critical"] are empty after [onNormalSliderChange]. *)
Theorem no_zone_error_messages (k : string) (mn mx : number) (nr : number * number)
  (st : State) :
  getFieldError "warning" (validationErrors (onNormalSliderChange k mn mx nr st)) = None /\
  getFieldError "critical" (validationErrors (onNormalSliderChange k mn mx nr st)) = None.
Proof.
  unfold onNormalSliderChange. rewrite handler_errors. cbn [normalRange].
  pose proof (normalRange_errors_field k (fst nr) (snd nr) mn mx) as HF.
  unfold getFieldError.
  induction (errors _) as [|e l IH]; [split; reflexivity|].
  inversion HF as [|? ? He Hl]; subst. cbn [find]. rewrite He. cbn.
  exact (IH Hl).
Qed.


(** For the seven auto-adjusted metrics (all but weight) the warning and
    critical slider handlers leave the component state unchanged. *)
Theorem zone_sliders_locked (k : string) (v : number * number) (st : State)
  (Hk : In k ["temp"; "humidity"; "activity"; "co2"; "swarm"; "battery"; "honey"]%string) :
  onWarningSliderChange k v st = st /\ onCriticalSliderChange k v st = st.
Proof.
  repeat (destruct Hk as [<-|Hk]; [split; reflexivity|]). destruct Hk.
Qed.

Lemma nan_valid_normalRange (k : string) (mn mx : number) :
  valid (validateNormalRange k NaN NaN mn mx) = true.
Proof.
  unfold validateNormalRange. cbv beta zeta. cbn [valid].
  generalize (METRICS_CONFIG k) as cfg. intros cfg.
  destruct mn, mx; reflexivity.
Qed.

Lemma nan_valid_thresholds (k : string) (x mn mx : number) :
  valid (validateThresholds k NaN NaN NaN NaN NaN x mn mx) = true /\
  valid (validateThresholds k NaN NaN NaN NaN x NaN mn mx) = true.
Proof.
  unfold validateThresholds. cbv beta zeta. cbn [valid].
  generalize (METRICS_CONFIG k) as cfg. intros cfg.
  destruct (config_type_is cfg ascending);
    [|destruct (config_type_is cfg inverted);
      [|destruct (config_type_is cfg range)]];
    destruct x, mn, mx; split; reflexivity.
Qed.

(** For every auto-adjusted metric a NaN normal range passes validation
    and is written to the bound props, with NaN warning bounds, and the
    saved threshold set is accepted by [validateThresholds]. *)
Theorem nan_normal_range_saved (k : string) (mn mx : number) (st : State)
  (Hk : In k ["temp"; "humidity"; "activity"; "co2"; "swarm"; "battery"; "honey"]%string) :
  let b := bound (onNormalSliderChange k mn mx (NaN, NaN) st) in
  b_normalMin b = NaN /\ b_normalMax b = NaN /\
  b_warningMin b = NaN /\ b_warningMax b = NaN /\
  valid (validateThresholds k (b_normalMin b) (b_normalMax b) (b_warningMin b)
           (b_warningMax b) (b_criticalMin b) (b_criticalMax b) mn mx) = true.
Proof.
  cbv zeta. unfold onNormalSliderChange, handleNormalRangeChange. cbv zeta.
  cbn [normalRange fst snd]. rewrite nan_valid_normalRange. cbn [negb].
  pose proof (nan_valid_thresholds k mn NaN mx) as [_ Hi].
  pose proof (nan_valid_thresholds k mx NaN mn) as [Ha _].
  pose proof (nan_valid_thresholds k NaN NaN mn) as [Hr _].
  repeat (destruct Hk as [<-|Hk];
          [destruct mn, mx; cbn -[validateThresholds];
           repeat split; assumption|]).
  destruct Hk.
Qed.

Lemma adjust_step_valid (k : string) (cfg : MetricConfig) (nMin nMax dMin dMax : Q)
  (Hc : METRICS_CONFIG k = Some cfg)
  (Hv : valid (validateNormalRange k (Fin nMin) (Fin nMax) (Fin dMin) (Fin dMax)) = true) :
  exists a,
    (if MetricType_eqb (type cfg) ascending then
       autoAdjustAscendingThresholds k (Fin nMax) (Fin dMax)
     else if MetricType_eqb (type cfg) inverted then
       autoAdjustInvertedThresholds k (Fin nMin) (Fin dMin)
     else autoAdjustRangeThresholds k (Fin nMin) (Fin nMax) (Fin dMin) (Fin dMax)) = Ok a /\
    valid (validateThresholds k (Fin nMin) (Fin nMax)
             (a_warningMin a) (a_warningMax a) (a_criticalMin a) (a_criticalMax a)
             (Fin dMin) (Fin dMax)) = true.
Proof.
  pose proof (AutoAdjust.validateNormalRange_valid _ _ _ _ _ Hv) as (E1 & E2 & E3 & HS).
  apply AutoAdjust.num_lt_Fin_true in E1, E2, E3.
  destruct (AutoAdjust.config_constants _ _ Hc) as [[s [Hs Hs0]] [e [He He0]]].
  destruct (type cfg) eqn:Ht; cbn [MetricType_eqb].
  - destruct (AutoAdjust.Math_min_Fin_spec dMax (nMax + s)) as (w & Hw & Hw1 & Hw2 & Hw3).
    exists (mkAdjusted (Fin nMax) (Fin w) (Fin w) (Fin dMax)). split.
    + unfold autoAdjustAscendingThresholds. rewrite Hc, Ht. cbn -[Math_min].
      rewrite Hs. cbn [num_add]. rewrite Hw. reflexivity.
    + cbn [a_warningMin a_warningMax a_criticalMin a_criticalMax].
      unfold validateThresholds. cbv beta zeta.
      rewrite (AutoAdjust.config_type_is_Some _ _ _ Hc Ht). rewrite HS.
      assert (nMax <= w) by (destruct Hw3 as [Hw3|Hw3]; rewrite Hw3; lra).
      AutoAdjust.lt_false. reflexivity.
  - destruct (AutoAdjust.Math_max_Fin_spec dMin (nMin + - s)) as (w & Hw & Hw1 & Hw2 & Hw3).
    exists (mkAdjusted (Fin w) (Fin nMin) (Fin dMin) (Fin w)). split.
    + unfold autoAdjustInvertedThresholds. rewrite Hc, Ht. cbn -[Math_max].
      rewrite Hs. unfold num_sub. cbn [num_neg num_add]. rewrite Hw. reflexivity.
    + cbn [a_warningMin a_warningMax a_criticalMin a_criticalMax].
      unfold validateThresholds. cbv beta zeta.
      rewrite (AutoAdjust.config_type_is_Some _ _ _ Hc Ht).
      assert (Ha : config_type_is (METRICS_CONFIG k) ascending = false)
        by (rewrite Hc; unfold config_type_is; now rewrite Ht).
      rewrite Ha, HS.
      assert (w <= nMin) by (destruct Hw3 as [Hw3|Hw3]; rewrite Hw3; lra).
      AutoAdjust.lt_false. reflexivity.
  - destruct (AutoAdjust.Math_max_Fin_spec dMin (nMin + - e)) as (w1 & Hw & Hw1 & Hw2 & Hw3).
    destruct (AutoAdjust.Math_min_Fin_spec dMax (nMax + e)) as (w2 & Hw' & Hw1' & Hw2' & Hw3').
    exists (mkAdjusted (Fin w1) (Fin w2) (Fin w1) (Fin w2)). split.
    + unfold autoAdjustRangeThresholds. rewrite Hc, Ht. cbn -[Math_max Math_min or_default].
      rewrite He. unfold num_sub. cbn [num_neg num_add]. rewrite Hw, Hw'. reflexivity.
    + cbn [a_warningMin a_warningMax a_criticalMin a_criticalMax].
      unfold validateThresholds. cbv beta zeta.
      rewrite (AutoAdjust.config_type_is_Some _ _ _ Hc Ht).
      assert (Ha : config_type_is (METRICS_CONFIG k) ascending = false)
        by (rewrite Hc; unfold config_type_is; now rewrite Ht).
      assert (Hi : config_type_is (METRICS_CONFIG k) inverted = false)
        by (rewrite Hc; unfold config_type_is; now rewrite Ht).
      rewrite Ha, Hi, HS.
      assert (w1 <= nMin) by (destruct Hw3 as [Hw3|Hw3]; rewrite Hw3; lra).
      assert (nMax <= w2) by (destruct Hw3' as [Hw3'|Hw3']; rewrite Hw3'; lra).
      AutoAdjust.lt_false. reflexivity.
Qed.

Lemma valid_errors_nil (r : ValidationResult) (l : list ValidationError) :
  r = mkResult (match l with [] => true | _ => false end) l ->
  valid r = true -> errors r = [].
Proof. intros -> H. destruct l; [reflexivity | discriminate]. Qed.

(** For an auto-adjusted metric and a finite normal range accepted by
    [validateNormalRange], [onNormalSliderChange] writes that normal range
    to the bound props, leaves no validation errors, keeps the warning and
    critical sliders equal to the written props, and the written
    threshold set is accepted by [validateThresholds]. *)
Theorem normal_slider_props_valid (k : string) (cfg : MetricConfig)
  (nMin nMax dMin dMax : Q) (st : State)
  (Hc : METRICS_CONFIG k = Some cfg) (Hm : allowManualThresholds cfg = false)
  (Hv : valid (validateNormalRange k (Fin nMin) (Fin nMax) (Fin dMin) (Fin dMax)) = true) :
  let st' := onNormalSliderChange k (Fin dMin) (Fin dMax) (Fin nMin, Fin nMax) st in
  let b := bound st' in
  b_normalMin b = Fin nMin /\ b_normalMax b = Fin nMax /\
  warningRange st' = (b_warningMin b, b_warningMax b) /\
  criticalRange st' = (b_criticalMin b, b_criticalMax b) /\
  validationErrors st' = [] /\
  valid (validateThresholds k (b_normalMin b) (b_normalMax b) (b_warningMin b)
           (b_warningMax b) (b_criticalMin b) (b_criticalMax b) (Fin dMin) (Fin dMax)) = true.
Proof.
  destruct (adjust_step_valid k cfg nMin nMax dMin dMax Hc Hv) as (a & Ha & Hva).
  assert (He : errors (validateNormalRange k (Fin nMin) (Fin nMax) (Fin dMin) (Fin dMax)) = [])
    by (eapply valid_errors_nil; [reflexivity | exact Hv]).
  cbv zeta. unfold onNormalSliderChange, handleNormalRangeChange. cbv zeta.
  cbn [normalRange fst snd]. rewrite Hv. cbn [negb].
  unfold metricConfig, ConfigHelpers.getMetricConfig. rewrite Hc, Hm, Ha, He.
  cbn [bound warningRange criticalRange validationErrors
       b_normalMin b_normalMax b_warningMin b_warningMax b_criticalMin b_criticalMax fst snd].
  destruct a. repeat split. exact Hva.
Qed.

End EditorFacts.

Module Part014Facts.
Import ConfigTransform GaugeCard.
Local Open Scope Q_scope.

Lemma valueToPercent_Fin (v a b : Q) (H : a < b) :
  valueToPercent (Fin v) (Fin a) (Fin b) = Fin ((v + - a) / (b + - a) * 100).
Proof.
  unfold valueToPercent, num_sub. cbn [num_neg num_add].
  rewrite Percent.num_div_Fin by (intro E; lra). reflexivity.
Qed.

Lemma calculatePercent_inside (v a b : Q) (H : a < b) (Ha : a <= v) (Hb : v <= b) :
  exists p, calculatePercent (Fin v) (Fin a) (Fin b) = Fin p /\
            p == (v + - a) / (b + - a) * 100.
Proof.
  unfold calculatePercent. cbv zeta.
  rewrite Percent.Math_min_Fin, Percent.Math_max_Fin.
  unfold num_sub. cbn [num_neg num_add].
  rewrite Percent.num_div_Fin by (intro E; lra). cbn [num_mul].
  eexists. split; [reflexivity|].
  destruct (Qle_bool b v) eqn:E1;
    [apply Qle_bool_iff in E1 | apply NumFacts.Qle_bool_false in E1].
  - destruct (Qle_bool b a) eqn:E2; [apply Qle_bool_iff in E2; lra|].
    assert (Hq : b == v) by lra. rewrite Hq. reflexivity.
  - destruct (Qle_bool v a) eqn:E2; [|reflexivity].
    apply Qle_bool_iff in E2. assert (Hq : a == v) by lra. rewrite Hq. reflexivity.
Qed.

Lemma scaled_le (v w a b : Q) (H : a < b) (Hvw : v <= w) :
  (v + - a) / (b + - a) * 100 <= (w + - a) / (b + - a) * 100.
Proof.
  apply Qmult_le_compat_r; [|lra].
  unfold Qdiv. apply Qmult_le_compat_r; [lra|].
  apply Qlt_le_weak, Qinv_lt_0_compat. lra.
Qed.

Lemma scaled_lt (v w a b : Q) (H : a < b) (Hvw : v < w) :
  (v + - a) / (b + - a) * 100 < (w + - a) / (b + - a) * 100.
Proof.
  apply Qmult_lt_compat_r; [lra|].
  unfold Qdiv. apply Qmult_lt_compat_r; [|lra].
  apply Qinv_lt_0_compat. lra.
Qed.

Lemma scaled_bounds (v a b : Q) (H : a < b) (Ha : a <= v) (Hb : v <= b) :
  0 <= (v + - a) / (b + - a) * 100 <= 100.
Proof.
  split.
  - apply Qmult_le_0_compat; [|lra].
    apply Qle_shift_div_l; lra.
  - assert ((v + - a) / (b + - a) <= 1) by (apply Qle_shift_div_r; lra). lra.
Qed.

Lemma Qle_bool_lt (x y : Q) : y < x -> Qle_bool x y = false.
Proof.
  intros H. destruct (Qle_bool x y) eqn:E; [apply Qle_bool_iff in E; lra | reflexivity].
Qed.

Ltac decide_Qle :=
  repeat match goal with
  | |- context [Qle_bool ?x ?y] =>
      first [rewrite (proj2 (Qle_bool_iff x y)) by lra
            | rewrite (Qle_bool_lt x y) by lra]
  end; cbn [negb andb].

Lemma sorted3 (e1 e2 : Q) (c1 c2 c3 l1 l2 l3 : string) (H1 : 0 <= e1) (H2 : e1 <= e2) :
  sortedSegments [mkSegment (Fin 0) (Fin e1) c1 l1; mkSegment (Fin e1) (Fin e2) c2 l2;
                  mkSegment (Fin e2) (Fin 100) c3 l3]
  = [mkSegment (Fin 0) (Fin e1) c1 l1; mkSegment (Fin e1) (Fin e2) c2 l2;
     mkSegment (Fin e2) (Fin 100) c3 l3].
Proof.
  repeat (first [rewrite (AutoAdjust.num_lt_Fin_false _ _) by lra
                | progress cbv [sortedSegments fold_left insert_sorted compare_start
                                num_sub start num_neg num_add]]).
  reflexivity.
Qed.

(** In the configuration-driven transform (part_014), an ascending reading
    exactly at [normalMax] is classified [safe] by [calculateSeverity], but
    the status the gauge card derives from its [calculatePercent] position
    and [generateAscendingSegments] ([currentStatus]) is [warning]; a
    reading exactly at [warningMax] is classified [warning], but the card's
    [currentStatus] is [critical]. The gauge card's half-open segments put
    each split point in the upper segment. *)
Theorem ascending_boundary_mismatch (dMin dMax nMax wMax : Q) (a b : number)
  (H1 : dMin <= nMax) (H2 : nMax < wMax) (H3 : wMax <= dMax) :
  calculateSeverity (Fin nMax) a (Fin nMax) b (Fin wMax) MetricsConfig.ascending = safe /\
  currentStatus (currentSegment (calculatePercent (Fin nMax) (Fin dMin) (Fin dMax))
    (generateAscendingSegments (Fin dMin) (Fin dMax) (Fin nMax) (Fin wMax))) = warning /\
  calculateSeverity (Fin wMax) a (Fin nMax) b (Fin wMax) MetricsConfig.ascending = warning /\
  currentStatus (currentSegment (calculatePercent (Fin wMax) (Fin dMin) (Fin dMax))
    (generateAscendingSegments (Fin dMin) (Fin dMax) (Fin nMax) (Fin wMax))) = critical.
Proof.
  assert (Hd : dMin < dMax) by lra.
  unfold generateAscendingSegments. cbv zeta.
  rewrite !valueToPercent_Fin by exact Hd.
  pose proof (scaled_lt nMax wMax dMin dMax Hd H2) as L12.
  pose proof (scaled_bounds nMax dMin dMax Hd H1 ltac:(lra)) as B1.
  pose proof (scaled_bounds wMax dMin dMax Hd ltac:(lra) H3) as B2.
  set (e1 := (nMax + - dMin) / (dMax + - dMin) * 100) in *.
  set (e2 := (wMax + - dMin) / (dMax + - dMin) * 100) in *.
  destruct (calculatePercent_inside nMax dMin dMax Hd H1 ltac:(lra)) as (p1 & Hp1 & Hq1).
  destruct (calculatePercent_inside wMax dMin dMax Hd ltac:(lra) H3) as (p2 & Hp2 & Hq2).
  fold e1 in Hq1. fold e2 in Hq2. rewrite Hp1, Hp2.
  unfold currentSegment. rewrite sorted3 by lra.
  unfold calculateSeverity. cbn [first_match start stop].
  num_to_Q.
  decide_Qle. repeat split; reflexivity.
Qed.

(** For an inverted metric of the configuration-driven transform (part_014)
    with [displayMin <= warningMin <= normalMin <= displayMax], the gauge
    card's [currentStatus] on the [calculatePercent] position and
    [generateInvertedSegments] equals [calculateSeverity] for every reading
    inside the display range. *)
Theorem inverted_card_matches_severity (v dMin dMax wMin nMin : Q) (a b : number)
  (Hd : dMin < dMax) (Hw : dMin <= wMin) (Hwn : wMin <= nMin) (Hn : nMin <= dMax)
  (Hv1 : dMin <= v) (Hv2 : v <= dMax) :
  currentStatus (currentSegment (calculatePercent (Fin v) (Fin dMin) (Fin dMax))
    (generateInvertedSegments (Fin dMin) (Fin dMax) (Fin wMin) (Fin nMin)))
  = calculateSeverity (Fin v) (Fin nMin) a (Fin wMin) b MetricsConfig.inverted.
Proof.
  unfold generateInvertedSegments. cbv zeta.
  rewrite !valueToPercent_Fin by exact Hd.
  destruct (calculatePercent_inside v dMin dMax Hd Hv1 Hv2) as (p & Hp & Hq).
  rewrite Hp.
  pose proof (scaled_le wMin nMin dMin dMax Hd Hwn) as L12.
  pose proof (scaled_bounds wMin dMin dMax Hd Hw ltac:(lra)) as B1.
  pose proof (scaled_bounds nMin dMin dMax Hd ltac:(lra) Hn) as B2.
  pose proof (scaled_bounds v dMin dMax Hd Hv1 Hv2) as B3.
  assert (Cw : (v < wMin -> (v + - dMin) / (dMax + - dMin) * 100 <
                             (wMin + - dMin) / (dMax + - dMin) * 100) /\
               (wMin <= v -> (wMin + - dMin) / (dMax + - dMin) * 100 <=
                             (v + - dMin) / (dMax + - dMin) * 100))
    by (split; [apply scaled_lt | apply scaled_le]; assumption).
  assert (Cn : (v < nMin -> (v + - dMin) / (dMax + - dMin) * 100 <
                             (nMin + - dMin) / (dMax + - dMin) * 100) /\
               (nMin <= v -> (nMin + - dMin) / (dMax + - dMin) * 100 <=
                             (v + - dMin) / (dMax + - dMin) * 100))
    by (split; [apply scaled_lt | apply scaled_le]; assumption).
  set (ew := (wMin + - dMin) / (dMax + - dMin) * 100) in *.
  set (en := (nMin + - dMin) / (dMax + - dMin) * 100) in *.
  set (ev := (v + - dMin) / (dMax + - dMin) * 100) in *.
  unfold currentSegment. rewrite sorted3 by lra.
  unfold calculateSeverity. cbn [first_match start stop].
  num_to_Q.
  destruct (Qlt_le_dec v wMin) as [Lw|Lw]; destruct (Qlt_le_dec v nMin) as [Ln|Ln];
    destruct Cw as [Cw1 Cw2]; destruct Cn as [Cn1 Cn2];
    first [specialize (Cw1 Lw) | specialize (Cw2 Lw)];
    first [specialize (Cn1 Ln) | specialize (Cn2 Ln)];
    decide_Qle; reflexivity.
Qed.

End Part014Facts.


(* ================================================================= *)
(** ** Witnesses: the hypotheses of the theorems hold on concrete inputs *)

Module Witnesses.

Import TelemetryTransform.
Local Open Scope Q_scope.

(** Temperature, normal [[32, 35.5]], critical outside [[30, 38]]. *)
Lemma calculateSeverity_range_witness :
  (30 <= 32 /\ 32 <= 355 # 10 /\ 355 # 10 <= 38) /\
  (let sev := calculateSeverity (Fin 34) (Fin 32) (Fin (355 # 10)) (Fin 30)
                (Fin 38) (Fin 30) (Fin 38) normal in
   (sev = critical <-> 34 < 30 \/ 38 < 34) /\
   (sev = safe <-> 32 <= 34 /\ 34 <= 355 # 10) /\
   (sev = warning <->
      ~ (34 < 30 \/ 38 < 34) /\ ~ (32 <= 34 /\ 34 <= 355 # 10))).
Proof.
  assert (H1 : 30 <= 32) by lra.
  assert (H2 : 32 <= 355 # 10) by lra.
  assert (H3 : 355 # 10 <= 38) by lra.
  split; [auto|].
  exact (Classifier.calculateSeverity_range 34 32 (355 # 10) 30 38 30 38 H1 H2 H3).
Defined.

Lemma calculatePercent_linear_witness :
  15 < 45 /\
  (exists q, calculatePercent (Fin (355 # 10)) (Fin 15) (Fin 45) = Fin q /\
             q == 100 * (Percent.clampQ 15 45 (355 # 10) - 15) / (45 - 15) /\
             0 <= q <= 100) /\
  (exists q, calculatePercent (Fin (355 # 10)) (Fin 15) (Fin 45) = Fin q /\
             q == 205 # 3).
Proof.
  assert (H : 15 < 45) by lra.
  split; [exact H|].
  exact (Percent.calculatePercent_linear (355 # 10) 15 45 H).
Defined.

Lemma classifier_segment_agreement_witness :
  (30 <= 32 /\ 32 <= 355 # 10 /\ 355 # 10 <= 38) /\
  map label (segments_containing
               (calculateRangeBasedPercent (Fin 34)
                  (mkRangeThresholds (Fin 32) (Fin (355 # 10)) (Fin 30) (Fin 38))
                  (mkRange (Fin 18) (Fin 40)))
               (generateRangeBasedSegments (mkRange (Fin 18) (Fin 40))
                  (mkSegmentThresholds (Fin 32) (Fin (355 # 10)) (Fin 30) (Fin 38)
                     (Fin 30) (Fin 38))))
  = [severity_label (calculateSeverity (Fin 34) (Fin 32) (Fin (355 # 10)) (Fin 30)
                       (Fin 38) (Fin 30) (Fin 38) normal)].
Proof.
  assert (H1 : 30 <= 32) by lra.
  assert (H2 : 32 <= 355 # 10) by lra.
  assert (H3 : 355 # 10 <= 38) by lra.
  split; [auto|].
  exact (proj2 (Gauge.classifier_segment_agreement 34 32 (355 # 10) 30 38 30 38
                  (mkRange (Fin 18) (Fin 40)) (mkRange (Fin 18) (Fin 40)) H1 H2 H3)).
Defined.

Lemma nonfinite_inputs_not_rejected_witness :
  0 < 100 /\
  calculateSeverity NaN (Fin 0) (Fin 1) (Fin 2) (Fin 3) (Fin 4) (Fin 5) ascending
  = critical /\
  (exists q, calculatePercent PosInf (Fin 0) (Fin 100) = Fin q /\ q == 100).
Proof.
  assert (H : 0 < 100) by lra.
  destruct (NonFinite.nonfinite_inputs_not_rejected (Fin 0) (Fin 1) (Fin 2) (Fin 3)
              (Fin 4) (Fin 5) 0 100 H) as (Ha & _ & _ & Hp & _ & _ & _).
  exact (conj H (conj Ha Hp)).
Defined.

Lemma autoAdjustAscending_rule_witness :
  MetricsConfig.METRICS_CONFIG "co2" = Some MetricsConfig.co2_cfg /\
  MetricsConfig.type MetricsConfig.co2_cfg = MetricsConfig.ascending /\
  MetricsConfig.warningSpan MetricsConfig.co2_cfg = Fin 500 /\
  (exists w,
     MetricsConfig.autoAdjustAscendingThresholds "co2" (Fin 1800) (Fin 4000)
     = MetricsConfig.Ok (MetricsConfig.mkAdjusted (Fin 1800) (Fin w) (Fin w) (Fin 4000)) /\
     w == Qmin 4000 (1800 + 500)).
Proof.
  assert (Hc : MetricsConfig.METRICS_CONFIG "co2" = Some MetricsConfig.co2_cfg)
    by reflexivity.
  assert (Ht : MetricsConfig.type MetricsConfig.co2_cfg = MetricsConfig.ascending)
    by reflexivity.
  assert (Hs : MetricsConfig.warningSpan MetricsConfig.co2_cfg = Fin 500) by reflexivity.
  split; [exact Hc|]. split; [exact Ht|]. split; [exact Hs|].
  exact (proj1 (AutoAdjust.autoAdjustAscending_rule "co2" MetricsConfig.co2_cfg
                  500 1800 4000 Hc Ht Hs)).
Defined.

Lemma autoAdjust_round_trip_witness :
  MetricsConfig.METRICS_CONFIG "co2" = Some MetricsConfig.co2_cfg /\
  MetricsConfig.valid (MetricsConfig.validateNormalRange "co2" (Fin 400) (Fin 1800)
                         (Fin 400) (Fin 4000)) = true /\
  exists a,
    MetricsConfig.autoAdjustForType "co2" (Fin 400) (Fin 1800) (Fin 400) (Fin 4000)
    = Some a /\
    MetricsConfig.valid
      (MetricsConfig.validateThresholds "co2" (Fin 400) (Fin 1800)
         (MetricsConfig.a_warningMin a) (MetricsConfig.a_warningMax a)
         (MetricsConfig.a_criticalMin a) (MetricsConfig.a_criticalMax a)
         (Fin 400) (Fin 4000)) = true.
Proof.
  assert (Hc : MetricsConfig.METRICS_CONFIG "co2" = Some MetricsConfig.co2_cfg)
    by reflexivity.
  assert (Hv : MetricsConfig.valid (MetricsConfig.validateNormalRange "co2" (Fin 400)
                 (Fin 1800) (Fin 400) (Fin 4000)) = true) by (vm_compute; reflexivity).
  split; [exact Hc|]. split; [exact Hv|].
  exact (AutoAdjust.autoAdjust_round_trip "co2" MetricsConfig.co2_cfg 400 1800 400 4000
           Hc Hv).
Defined.

End Witnesses.

Module TransformWitnesses.

Import TelemetryTransform GaugeCard.
Local Open Scope Q_scope.

Lemma gauge_position_monotone_witness :
  30 <= 34 /\
  num_le (calculateRangeBasedPercent (Fin 30)
            (mkRangeThresholds (Fin 32) (Fin 36) (Fin 30) (Fin 38)) (mkRange (Fin 18) (Fin 40)))
         (calculateRangeBasedPercent (Fin 34)
            (mkRangeThresholds (Fin 32) (Fin 36) (Fin 30) (Fin 38)) (mkRange (Fin 18) (Fin 40)))
  = true.
Proof.
  assert (H : 30 <= 34) by lra.
  split; [exact H|].
  exact (proj1 (TransformFacts.gauge_position_monotone 30 34 H (Fin 32) (Fin 36) (Fin 30)
                  (Fin 38) (mkRange (Fin 18) (Fin 40)))).
Defined.

(** Temperature, normal [[32, 36]], warning [[30, 38]], critical outside
    [[30, 38]], reading 37. *)
Lemma card_status_range_metrics_witness :
  (30 <= 32 /\ 32 <= 36 /\ 36 <= 38) /\
  currentStatus (currentSegment
    (calculateRangeBasedPercent (Fin 37)
       (mkRangeThresholds (Fin 32) (Fin 36) (Fin 30) (Fin 38)) (mkRange (Fin 18) (Fin 40)))
    (generateRangeBasedSegments (mkRange (Fin 18) (Fin 40))
       (mkSegmentThresholds (Fin 32) (Fin 36) (Fin 30) (Fin 38) (Fin 30) (Fin 38))))
  = calculateSeverity (Fin 37) (Fin 32) (Fin 36) (Fin 30) (Fin 38) (Fin 30) (Fin 38) normal.
Proof.
  assert (H1 : 30 <= 32) by lra.
  assert (H2 : 32 <= 36) by lra.
  assert (H3 : 36 <= 38) by lra.
  split; [auto|].
  exact (CardFacts.card_status_range_metrics 37 32 36 30 38 30 38
           (mkRange (Fin 18) (Fin 40)) (mkRange (Fin 18) (Fin 40)) H1 H2 H3).
Defined.

End TransformWitnesses.

Module ConfigWitnesses.

Import MetricsConfig ConfigHelpers MetricThreshold.
Local Open Scope Q_scope.

(** CO2, normal [[400, 1800]] inside the display range [[400, 4000]]. *)
Lemma autoAdjust_zones_nested_witness :
  (400 <= 400 /\ 1800 <= 4000) /\
  match autoAdjustAscendingThresholds "co2" (Fin 1800) (Fin 4000) with
  | Ok a => exists w, a = mkAdjusted (Fin 1800) (Fin w) (Fin w) (Fin 4000) /\
                      1800 <= w <= 4000
  | Throw _ => True
  end.
Proof.
  assert (H1 : 400 <= 400) by lra.
  assert (H2 : 1800 <= 4000) by lra.
  split; [auto|].
  exact (proj1 (ConfigFacts.autoAdjust_zones_nested "co2" 400 1800 400 4000 H1 H2)).
Defined.

(** CO2: normal [[400, 1800]], warning [[1800, 2300]], critical
    [[2300, 4000]], display range [[400, 4000]], minimum span 1. *)
Lemma validateThresholds_finite_iff_witness :
  minSpan_of (METRICS_CONFIG "co2") = Fin 1 /\
  valid (validateThresholds "co2" (Fin 400) (Fin 1800) (Fin 1800) (Fin 2300)
           (Fin 2300) (Fin 4000) (Fin 400) (Fin 4000)) = true.
Proof.
  assert (Hms : minSpan_of (METRICS_CONFIG "co2") = Fin 1) by reflexivity.
  assert (Ht : isAscendingMetric "co2" = true) by reflexivity.
  split; [exact Hms|].
  apply (proj2 (ValidationFacts.validateThresholds_finite_iff "co2"
                  400 1800 1800 2300 2300 4000 400 4000 1 Hms)).
  rewrite Ht. repeat split; lra.
Defined.

Lemma validateNormalRange_finite_iff_witness :
  minSpan_of (METRICS_CONFIG "co2") = Fin 1 /\
  valid (validateNormalRange "co2" (Fin 400) (Fin 1800) (Fin 400) (Fin 4000)) = true.
Proof.
  assert (Hms : minSpan_of (METRICS_CONFIG "co2") = Fin 1) by reflexivity.
  split; [exact Hms|].
  apply (proj2 (ValidationFacts.validateNormalRange_finite_iff "co2"
                  400 1800 400 4000 1 Hms)).
  repeat split; lra.
Defined.

Lemma validateThresholds_implies_normalRange_witness :
  valid (validateThresholds "co2" (Fin 400) (Fin 1800) (Fin 1800) (Fin 2300)
           (Fin 2300) (Fin 4000) (Fin 400) (Fin 4000)) = true /\
  valid (validateNormalRange "co2" (Fin 400) (Fin 1800) (Fin 400) (Fin 4000)) = true.
Proof.
  assert (H : valid (validateThresholds "co2" (Fin 400) (Fin 1800) (Fin 1800) (Fin 2300)
                       (Fin 2300) (Fin 4000) (Fin 400) (Fin 4000)) = true)
    by (vm_compute; reflexivity).
  split; [exact H|].
  exact (ValidationFacts.validateThresholds_implies_normalRange "co2" _ _ _ _ _ _ _ _ H).
Defined.


Lemma zone_sliders_locked_witness :
  In "co2" ["temp"; "humidity"; "activity"; "co2"; "swarm"; "battery"; "honey"]%string /\
  onWarningSliderChange "co2" (Fin 1000, Fin 2000)
    (mkState (mkBound (Fin 400) (Fin 1800) (Fin 1800) (Fin 2300) (Fin 2300) (Fin 4000))
       (Fin 400, Fin 1800) (Fin 1800, Fin 2300) (Fin 2300, Fin 4000) [])
  = mkState (mkBound (Fin 400) (Fin 1800) (Fin 1800) (Fin 2300) (Fin 2300) (Fin 4000))
      (Fin 400, Fin 1800) (Fin 1800, Fin 2300) (Fin 2300, Fin 4000) [].
Proof.
  assert (Hk : In "co2" ["temp"; "humidity"; "activity"; "co2"; "swarm"; "battery";
                         "honey"]%string)
    by (do 3 right; left; reflexivity).
  split; [exact Hk|].
  exact (proj1 (EditorFacts.zone_sliders_locked "co2" (Fin 1000, Fin 2000)
                  (mkState (mkBound (Fin 400) (Fin 1800) (Fin 1800) (Fin 2300) (Fin 2300)
                              (Fin 4000))
                     (Fin 400, Fin 1800) (Fin 1800, Fin 2300) (Fin 2300, Fin 4000) [])
                  Hk)).
Defined.

Lemma nan_normal_range_saved_witness :
  In "co2" ["temp"; "humidity"; "activity"; "co2"; "swarm"; "battery"; "honey"]%string /\
  let b := bound (onNormalSliderChange "co2" (Fin 400) (Fin 4000) (NaN, NaN)
                    (mkState (mkBound (Fin 400) (Fin 1800) (Fin 1800) (Fin 2300)
                                (Fin 2300) (Fin 4000))
                       (Fin 400, Fin 1800) (Fin 1800, Fin 2300) (Fin 2300, Fin 4000) [])) in
  b_normalMin b = NaN /\ b_normalMax b = NaN /\
  b_warningMin b = NaN /\ b_warningMax b = NaN /\
  valid (validateThresholds "co2" (b_normalMin b) (b_normalMax b) (b_warningMin b)
           (b_warningMax b) (b_criticalMin b) (b_criticalMax b) (Fin 400) (Fin 4000)) = true.
Proof.
  assert (Hk : In "co2" ["temp"; "humidity"; "activity"; "co2"; "swarm"; "battery";
                         "honey"]%string)
    by (do 3 right; left; reflexivity).
  split; [exact Hk|].
  exact (EditorFacts.nan_normal_range_saved "co2" (Fin 400) (Fin 4000)
           (mkState (mkBound (Fin 400) (Fin 1800) (Fin 1800) (Fin 2300) (Fin 2300) (Fin 4000))
              (Fin 400, Fin 1800) (Fin 1800, Fin 2300) (Fin 2300, Fin 4000) [])
           Hk).
Defined.

Lemma normal_slider_props_valid_witness :
  METRICS_CONFIG "co2" = Some co2_cfg /\ allowManualThresholds co2_cfg = false /\
  valid (validateNormalRange "co2" (Fin 400) (Fin 1800) (Fin 400) (Fin 4000)) = true /\
  let st' := onNormalSliderChange "co2" (Fin 400) (Fin 4000) (Fin 400, Fin 1800)
               (mkState (mkBound (Fin 400) (Fin 1000) (Fin 1000) (Fin 1500) (Fin 1500)
                           (Fin 4000))
                  (Fin 400, Fin 1000) (Fin 1000, Fin 1500) (Fin 1500, Fin 4000) []) in
  let b := bound st' in
  b_normalMin b = Fin 400 /\ b_normalMax b = Fin 1800 /\
  warningRange st' = (b_warningMin b, b_warningMax b) /\
  criticalRange st' = (b_criticalMin b, b_criticalMax b) /\
  validationErrors st' = [] /\
  valid (validateThresholds "co2" (b_normalMin b) (b_normalMax b) (b_warningMin b)
           (b_warningMax b) (b_criticalMin b) (b_criticalMax b) (Fin 400) (Fin 4000)) = true.
Proof.
  assert (Hc : METRICS_CONFIG "co2" = Some co2_cfg) by reflexivity.
  assert (Hm : allowManualThresholds co2_cfg = false) by reflexivity.
  assert (Hv : valid (validateNormalRange "co2" (Fin 400) (Fin 1800) (Fin 400) (Fin 4000))
               = true) by (vm_compute; reflexivity).
  split; [exact Hc|]. split; [exact Hm|]. split; [exact Hv|].
  exact (EditorFacts.normal_slider_props_valid "co2" co2_cfg 400 1800 400 4000
           (mkState (mkBound (Fin 400) (Fin 1000) (Fin 1000) (Fin 1500) (Fin 1500) (Fin 4000))
              (Fin 400, Fin 1000) (Fin 1000, Fin 1500) (Fin 1500, Fin 4000) [])
           Hc Hm Hv).
Defined.

End ConfigWitnesses.

Module Part014Witnesses.

Import ConfigTransform GaugeCard.
Local Open Scope Q_scope.

(** CO2 in the configuration-driven transform: display range
    [[400, 4000]], normal up to 1800, warning up to 2300. *)
Lemma ascending_boundary_mismatch_witness :
  (400 <= 1800 /\ 1800 < 2300 /\ 2300 <= 4000) /\
  calculateSeverity (Fin 1800) (Fin 400) (Fin 1800) (Fin 1800) (Fin 2300)
    MetricsConfig.ascending = safe /\
  currentStatus (currentSegment (calculatePercent (Fin 1800) (Fin 400) (Fin 4000))
    (generateAscendingSegments (Fin 400) (Fin 4000) (Fin 1800) (Fin 2300))) = warning.
Proof.
  assert (H1 : 400 <= 1800) by lra.
  assert (H2 : 1800 < 2300) by lra.
  assert (H3 : 2300 <= 4000) by lra.
  split; [auto|].
  destruct (Part014Facts.ascending_boundary_mismatch 400 4000 1800 2300 (Fin 400) (Fin 1800)
              H1 H2 H3) as (Hs & Hw & _).
  exact (conj Hs Hw).
Defined.

(** Battery: display range [[0, 100]], warning from 30, normal from 70,
    reading 50. *)
Lemma inverted_card_matches_severity_witness :
  (0 < 100 /\ 0 <= 30 /\ 30 <= 70 /\ 70 <= 100 /\ 0 <= 50 /\ 50 <= 100) /\
  currentStatus (currentSegment (calculatePercent (Fin 50) (Fin 0) (Fin 100))
    (generateInvertedSegments (Fin 0) (Fin 100) (Fin 30) (Fin 70)))
  = calculateSeverity (Fin 50) (Fin 70) (Fin 100) (Fin 30) (Fin 70) MetricsConfig.inverted.
Proof.
  assert (H1 : 0 < 100) by lra.
  assert (H2 : 0 <= 30) by lra.
  assert (H3 : 30 <= 70) by lra.
  assert (H4 : 70 <= 100) by lra.
  assert (H5 : 0 <= 50) by lra.
  assert (H6 : 50 <= 100) by lra.
  split; [auto 7|].
  exact (Part014Facts.inverted_card_matches_severity 50 0 100 30 70 (Fin 100) (Fin 70)
           H1 H2 H3 H4 H5 H6).
Defined.

End Part014Witnesses.
